(** * FiftyOne: run bookkeeping and 3D scene nodes

    A shallow embedding of [fiftyone/core/runs.py] and of the mesh, point
    cloud and light classes of [fiftyone/core/threed], together with the
    properties of the specification that concern them.

    Python strings are modelled as [string] (the UTF-8 bytes of the text).
    Byte-wise lexicographic order on UTF-8 coincides with Python's
    code-point order on [str], and the ASCII suffixes the code tests for
    can only be matched by ASCII characters. *)

From Stdlib Require Import Strings.String Strings.Ascii Floats.PrimFloat.
From stdpp Require Import gmap strings list sorting.

Open Scope string_scope.

Set Warnings "-register-all".

(** ** Python string primitives *)

Module PyStr.

Definition is_upper (c : ascii) : bool :=
  (65 <=? nat_of_ascii c)%nat && (nat_of_ascii c <=? 90)%nat.

Definition is_lower (c : ascii) : bool :=
  (97 <=? nat_of_ascii c)%nat && (nat_of_ascii c <=? 122)%nat.

Definition is_digit (c : ascii) : bool :=
  (48 <=? nat_of_ascii c)%nat && (nat_of_ascii c <=? 57)%nat.

Definition lower_char (c : ascii) : ascii :=
  if is_upper c then ascii_of_nat (nat_of_ascii c + 32) else c.

(** [str.lower()].  Only the letters A-Z are mapped; a non-ASCII character
    never lower-cases to one of the ASCII characters the callers compare
    against, so the suffix tests below agree with Python's. *)
Fixpoint lower (s : string) : string :=
  match s with
  | EmptyString => EmptyString
  | String c s' => String (lower_char c) (lower s')
  end.

(** [s.endswith(suffix)] *)
Definition endswith (s suffix : string) : bool :=
  (String.length suffix <=? String.length s)%nat
  && String.eqb
       (substring (String.length s - String.length suffix)
                  (String.length suffix) s)
       suffix.

(** [s[:-n]] for [n > 0] *)
Definition drop_last (n : nat) (s : string) : string :=
  substring 0 (String.length s - n) s.

(** The identifiers of the ASCII fragment of Python: a letter or an
    underscore followed by letters, digits and underscores.  Used as the
    concrete instance of [str.isidentifier] in the examples. *)
Definition is_ident_start (c : ascii) : bool :=
  is_upper c || is_lower c || Ascii.eqb c "_"%char.

Definition is_ident_char (c : ascii) : bool :=
  is_ident_start c || is_digit c.

Fixpoint all_chars (p : ascii -> bool) (s : string) : bool :=
  match s with
  | EmptyString => true
  | String c s' => p c && all_chars p s'
  end.

Definition ascii_isidentifier (s : string) : bool :=
  match s with
  | EmptyString => false
  | String c s' => is_ident_start c && all_chars is_ident_char s'
  end.

(** Lower camel case, the naming convention of the viewer's JSON: a
    lower-case letter followed by letters and digits only. *)
Definition is_camel_case (s : string) : bool :=
  match s with
  | EmptyString => false
  | String c s' =>
      is_lower c && all_chars (fun x => is_upper x || is_lower x || is_digit x) s'
  end.

(** A path has the extension [ext] up to the case of its letters: it ends
    with a suffix that lower-cases to [ext]. *)
Definition has_extension (path ext : string) : Prop :=
  exists stem suffix, path = String.append stem suffix /\ lower suffix = ext.

End PyStr.

(** ** 3D scene nodes ([fiftyone/core/threed]) *)

Module Threed.
Import PyStr.

(** JSON-like values carried by the emitted dicts *)
Inductive jsval : Type :=
| JNull
| JBool (b : bool)
| JNum (x : float)
| JStr (s : string)
| JArr (l : list jsval)
| JObj (fields : list (string * jsval)).

(** A Python dict with string keys, in insertion order *)
Abbreviation pydict := (list (string * jsval)).

Fixpoint dict_set (k : string) (v : jsval) (d : pydict) : pydict :=
  match d with
  | [] => [(k, v)]
  | (k', v') :: d' =>
      if String.eqb k' k then (k, v) :: d' else (k', v') :: dict_set k v d'
  end.

(** [{**d, **e}], also [d.update(e)] *)
Definition dict_merge (d e : pydict) : pydict :=
  fold_left (fun acc kv => dict_set kv.1 kv.2 acc) e d.

Definition keys (d : pydict) : list string := d.*1.

Inductive exn : Type :=
| ValueError (msg : string)
| OtherError (descr : string).

Abbreviation result A := (exn + A)%type.

Definition is_ValueError {A} (r : result A) : bool :=
  match r with inl (ValueError _) => true | _ => false end.

Definition is_error {A} (r : result A) : bool :=
  match r with inl _ => true | inr _ => false end.

(** The classes of [object_3d.py], [material_3d.py] and
    [transformation.py] that the node classes build on. *)
Class Base : Type := {
  Object3D : Type;
  (** [Object3D.__init__(name=..., **kwargs)] *)
  Object3D_init : string -> pydict -> result Object3D;
  (** [Object3D._to_dict_extra], reached through [super()] by the lights *)
  Object3D_to_dict_extra : Object3D -> pydict;
  PointCloudMaterial : Type;
  (** [PointCloudMaterial()] *)
  PointCloudMaterial_default : PointCloudMaterial;
  (** [PointCloudMaterial._from_dict(d)] *)
  PointCloudMaterial_from_dict : pydict -> result PointCloudMaterial;
  (** [material.as_dict()] *)
  PointCloudMaterial_as_dict : PointCloudMaterial -> pydict;
}.

Record Vector3 : Type := { vx : float; vy : float; vz : float }.

(** [v.to_arr().tolist()] *)
Definition Vector3_tolist (v : Vector3) : jsval :=
  JArr [JNum (vx v); JNum (vy v); JNum (vz v)].

Section Nodes.
Context `{B : Base}.

(** *** mesh.py *)

Record ObjMesh : Type := {
  obj_base : Object3D;
  obj_path : string;
  mtl_path : option string;
}.

Definition ObjMesh_init (name obj_path : string) (mtl_path : option string)
    (kwargs : pydict) : result ObjMesh :=
  match Object3D_init name kwargs with
  | inl e => inl e
  | inr base =>
      if negb (endswith (lower obj_path) ".obj")
      then inl (ValueError "OBJ mesh must be a .obj file")
      else
        let bad_mtl :=
          match mtl_path with
          | Some m => negb (endswith m ".mtl")
          | None => false
          end in
        if bad_mtl
        then inl (ValueError "OBJ material must be a .mtl file")
        else inr {| obj_base := base; obj_path := obj_path;
                    mtl_path := mtl_path |}
  end.

Definition opt_str (o : option string) : jsval :=
  match o with Some s => JStr s | None => JNull end.

Definition ObjMesh_to_dict_extra (m : ObjMesh) : pydict :=
  [("obj_path", JStr (obj_path m)); ("mtl_path", opt_str (mtl_path m))].

(** The FBX path is kept in an attribute called [gltf_path], as in the
    source. *)
Record FBXMesh : Type := {
  fbx_base : Object3D;
  fbx_gltf_path : string;
}.

Definition FBXMesh_init (name fbx_path : string) (kwargs : pydict)
    : result FBXMesh :=
  match Object3D_init name kwargs with
  | inl e => inl e
  | inr base =>
      if negb (endswith (lower fbx_path) ".fbx")
      then inl (ValueError "FBX mesh must be a .fbx file")
      else inr {| fbx_base := base; fbx_gltf_path := fbx_path |}
  end.

Definition FBXMesh_to_dict_extra (m : FBXMesh) : pydict :=
  [("fbx_path", JStr (fbx_gltf_path m))].

Record GLTFMesh : Type := {
  gltf_base : Object3D;
  gltf_path : string;
}.

Definition GLTFMesh_init (name gltf_path : string) (kwargs : pydict)
    : result GLTFMesh :=
  match Object3D_init name kwargs with
  | inl e => inl e
  | inr base =>
      if negb (endswith (lower gltf_path) ".gltf"
               || endswith (lower gltf_path) ".glb")
      then inl (ValueError "gLTF mesh must be a .gltf or .glb file")
      else inr {| gltf_base := base; gltf_path := gltf_path |}
  end.

Definition GLTFMesh_to_dict_extra (m : GLTFMesh) : pydict :=
  [("gltf_path", JStr (gltf_path m))].

Record PlyMesh : Type := {
  ply_base : Object3D;
  ply_path : string;
}.

Definition PlyMesh_init (name ply_path : string) (kwargs : pydict)
    : result PlyMesh :=
  match Object3D_init name kwargs with
  | inl e => inl e
  | inr base =>
      if negb (endswith (lower ply_path) ".ply")
      then inl (ValueError "PLY mesh must be a .ply file")
      else inr {| ply_base := base; ply_path := ply_path |}
  end.

Definition PlyMesh_to_dict_extra (m : PlyMesh) : pydict :=
  [("ply_path", JStr (ply_path m))].

Record StlMesh : Type := {
  stl_base : Object3D;
  stl_path : string;
}.

Definition StlMesh_init (name stl_path : string) (kwargs : pydict)
    : result StlMesh :=
  match Object3D_init name kwargs with
  | inl e => inl e
  | inr base =>
      if negb (endswith (lower stl_path) ".stl")
      then inl (ValueError "STL mesh must be a .stl file")
      else inr {| stl_base := base; stl_path := stl_path |}
  end.

Definition StlMesh_to_dict_extra (m : StlMesh) : pydict :=
  [("stl_path", JStr (stl_path m))].

(** *** pointcloud.py *)

(** The [material] argument: [None], a dict, or a material object (an
    object is truthy, so [material or PointCloudMaterial()] keeps it) *)
Inductive material_arg : Type :=
| MaterialNone
| MaterialDict (d : pydict)
| MaterialObj (m : PointCloudMaterial).

Record PointCloud : Type := {
  pc_base : Object3D;
  pcd_path : string;
  default_material : PointCloudMaterial;
  flag_for_projection : bool;
  (** set from outside the class; [hasattr] tests for it *)
  _pre_transformed_pcd_path : option jsval;
}.

Definition PointCloud_init (name pcd_path : string) (material : material_arg)
    (flag_for_projection : bool) (kwargs : pydict) : result PointCloud :=
  match Object3D_init name kwargs with
  | inl e => inl e
  | inr base =>
      if negb (endswith (lower pcd_path) ".pcd")
      then inl (ValueError "Point cloud must be a .pcd file")
      else
        let material' :=
          match material with
          | MaterialDict d => PointCloudMaterial_from_dict d
          | MaterialObj m => inr m
          | MaterialNone => inr PointCloudMaterial_default
          end in
        match material' with
        | inl e => inl e
        | inr m =>
            inr {| pc_base := base; pcd_path := pcd_path;
                   default_material := m;
                   flag_for_projection := flag_for_projection;
                   _pre_transformed_pcd_path := None |}
        end
  end.

Definition PointCloud_to_dict_extra (p : PointCloud) : pydict :=
  let r := [("pcdPath", JStr (pcd_path p));
            ("defaultMaterial",
             JObj (PointCloudMaterial_as_dict (default_material p)));
            ("flagForProjection", JBool (flag_for_projection p))] in
  match _pre_transformed_pcd_path p with
  | Some v => dict_set "preTransformedPcdPath" v r
  | None => r
  end.

(** *** lights.py *)

Record Light : Type := {
  light_base : Object3D;
  color : string;
  intensity : float;
}.

Definition Light_to_dict_extra (l : Light) : pydict :=
  dict_merge (Object3D_to_dict_extra (light_base l))
    [("color", JStr (color l)); ("intensity", JNum (intensity l))].

Record DirectionalLight : Type := {
  dl_light : Light;
  dl_target : Vector3;
}.

Definition DirectionalLight_to_dict_extra (l : DirectionalLight) : pydict :=
  dict_merge (Light_to_dict_extra (dl_light l))
    [("target", Vector3_tolist (dl_target l))].

Record PointLight : Type := {
  pl_light : Light;
  pl_distance : float;
  pl_decay : float;
}.

Definition PointLight_to_dict_extra (l : PointLight) : pydict :=
  dict_merge (Light_to_dict_extra (pl_light l))
    [("distance", JNum (pl_distance l)); ("decay", JNum (pl_decay l))].

Record SpotLight : Type := {
  sl_light : Light;
  sl_target : Vector3;
  sl_distance : float;
  sl_decay : float;
  sl_angle : float;
  sl_penumbra : float;
}.

Definition SpotLight_to_dict_extra (l : SpotLight) : pydict :=
  dict_merge (Light_to_dict_extra (sl_light l))
    [("target", Vector3_tolist (sl_target l));
     ("distance", JNum (sl_distance l));
     ("decay", JNum (sl_decay l));
     ("angle", JNum (sl_angle l));
     ("penumbra", JNum (sl_penumbra l))].

(** A scene node of any of the concrete classes.  [AmbientLight] adds no
    attribute to [Light] and inherits its [_to_dict_extra]. *)
Inductive Node : Type :=
| NObjMesh (m : ObjMesh)
| NFBXMesh (m : FBXMesh)
| NGLTFMesh (m : GLTFMesh)
| NPlyMesh (m : PlyMesh)
| NStlMesh (m : StlMesh)
| NPointCloud (p : PointCloud)
| NAmbientLight (l : Light)
| NDirectionalLight (l : DirectionalLight)
| NPointLight (l : PointLight)
| NSpotLight (l : SpotLight).

Definition _to_dict_extra (n : Node) : pydict :=
  match n with
  | NObjMesh m => ObjMesh_to_dict_extra m
  | NFBXMesh m => FBXMesh_to_dict_extra m
  | NGLTFMesh m => GLTFMesh_to_dict_extra m
  | NPlyMesh m => PlyMesh_to_dict_extra m
  | NStlMesh m => StlMesh_to_dict_extra m
  | NPointCloud p => PointCloud_to_dict_extra p
  | NAmbientLight l => Light_to_dict_extra l
  | NDirectionalLight l => DirectionalLight_to_dict_extra l
  | NPointLight l => PointLight_to_dict_extra l
  | NSpotLight l => SpotLight_to_dict_extra l
  end.

(** Modelled from the spec: [Object3D.as_dict] is not among the sources;
    the specification says that the dict of [_to_dict_extra] is merged with
    the base object's transform and visibility fields, here [base_fields]. *)
Definition as_dict (base_fields : pydict) (n : Node) : pydict :=
  dict_merge base_fields (_to_dict_extra n).

End Nodes.

(** The nodes of the mesh classes *)
Definition is_mesh `{B : Base} (n : Node) : bool :=
  match n with
  | NObjMesh _ | NFBXMesh _ | NGLTFMesh _ | NPlyMesh _ | NStlMesh _ => true
  | _ => false
  end.

(** What [Object3D._to_dict_extra] contributes to the dict of a node: the
    lights start from it, the other classes do not call it. *)
Definition inherited_extra `{B : Base} (n : Node) : pydict :=
  match n with
  | NAmbientLight l => Object3D_to_dict_extra (light_base l)
  | NDirectionalLight l => Object3D_to_dict_extra (light_base (dl_light l))
  | NPointLight l => Object3D_to_dict_extra (light_base (pl_light l))
  | NSpotLight l => Object3D_to_dict_extra (light_base (sl_light l))
  | _ => []
  end.

(** [d.get(k)] on an emitted dict *)
Fixpoint dict_get (k : string) (d : pydict) : option jsval :=
  match d with
  | [] => None
  | (k', v) :: d' => if String.eqb k' k then Some v else dict_get k d'
  end.

(** Whether a constructor returned a node *)
Definition constructed {A} (r : result A) : bool := negb (is_error r).

(** A base whose initialiser stores the name and never fails, for the
    concrete examples. *)
Definition plain_base : Base := {|
  Object3D := string;
  Object3D_init := fun name _ => inr name;
  Object3D_to_dict_extra := fun _ => [];
  PointCloudMaterial := unit;
  PointCloudMaterial_default := tt;
  PointCloudMaterial_from_dict := fun _ => inr tt;
  PointCloudMaterial_as_dict := fun _ => [];
|}.

(** A spot light over [plain_base], for the concrete examples *)
Definition demo_spot : @SpotLight plain_base :=
  {| sl_light := {| light_base := "SpotLight" : @Object3D plain_base;
                    color := "#ffffff"; intensity := PrimFloat.one |};
     sl_target := {| vx := PrimFloat.zero; vy := PrimFloat.zero;
                     vz := PrimFloat.zero |};
     sl_distance := PrimFloat.zero; sl_decay := PrimFloat.two;
     sl_angle := PrimFloat.one; sl_penumbra := PrimFloat.zero |}.

End Threed.

(** ** The runs framework ([fiftyone/core/runs.py]) *)

Module Runs.
Import PyStr.

(** *** Values, dicts and exceptions *)

Inductive pyval : Type :=
| VNone
| VBool (b : bool)
| VInt (n : Z)
| VStr (s : string).

#[global] Instance pyval_eq_dec : EqDecision pyval.
Proof. solve_decision. Defined.

(** [a == b] on these values: [bool] is a subclass of [int], so [True]
    equals [1] and [False] equals [0] *)
Definition py_eq (a b : pyval) : bool :=
  match a, b with
  | VNone, VNone => true
  | VBool x, VBool y => Bool.eqb x y
  | VInt x, VInt y => Z.eqb x y
  | VStr x, VStr y => String.eqb x y
  | VBool x, VInt n | VInt n, VBool x => Z.eqb n (if x then 1 else 0)
  | _, _ => false
  end.

(** A JSON dict, in insertion order *)
Abbreviation pydict := (list (string * pyval)).

Fixpoint dict_get (k : string) (d : pydict) : option pyval :=
  match d with
  | [] => None
  | (k', v) :: d' => if String.eqb k' k then Some v else dict_get k d'
  end.

Fixpoint dict_remove (k : string) (d : pydict) : pydict :=
  match d with
  | [] => []
  | (k', v) :: d' =>
      if String.eqb k' k then dict_remove k d' else (k', v) :: dict_remove k d'
  end.

(** The exceptions that cross the functions of the module.  The first
    eight are the [ValueError]s the module raises itself, one constructor
    per message; [cause] is the exception a [raise ... from e] chains. *)
Inductive exn : Type :=
| InvalidKeyError (key : option string)
| AlreadyExistsError (key : string)
| KeyTakenError (new_key : string)
| TypeMismatchError (key existing_type new_type : string)
| NoSuchRunError (key : string)
| AlreadyHasResultsError (key : string)
| InfoVersionError (key used current : string) (cause : exn)
| ResultsVersionError (key used current : string) (cause : exn)
| KeyError (key : string)
| ClassNotFoundError (name : string)
| ForeignError (descr : string).

Abbreviation result A := (exn + A)%type.

Definition rbind {A B} (r : result A) (k : A -> result B) : result B :=
  match r with
  | inl e => inl e
  | inr a => k a
  end.

(** *** Configs, run infos, documents and results *)

Record RunConfig : Type := {
  (** [type(self)], by its fully-qualified name: the [cls] property *)
  cfg_cls : string;
  cfg_method : string;
  (** the attributes the subclass declares, as [serialize] emits them *)
  cfg_attrs : pydict;
}.

Record RunInfo : Type := {
  info_key : string;
  info_version : option string;
  info_timestamp : Z;
  info_config : RunConfig;
}.

(** [fiftyone.core.odm.runs.RunDocument]; [doc_results] is the GridFS file
    of the document, [None] when there is none. *)
Record RunDocument : Type := {
  doc_key : string;
  doc_version : option string;
  doc_timestamp : Z;
  doc_config : pydict;
  doc_view_stages : list string;
  doc_results : option string;
}.

(** A [Run] instance: its class and the config it was built from *)
Record Run : Type := {
  run_type : string;
  run_config : RunConfig;
}.

(** A sample collection, as far as this module looks into it:
    [[json_util.dumps(s) for s in samples.view()._serialize(include_uuids=False)]].
    Its [_root_dataset] is the dataset of the state below. *)
Record SampleCollection : Type := {
  serialized_view : list string;
}.

(** The root dataset as a collection *)
Definition root_dataset : SampleCollection := {| serialized_view := [] |}.

Record RunResults : Type := {
  res_cls : string;
  res_samples : SampleCollection;
  res_config : option RunConfig;
  res_backend : option Run;
  _key : option string;
  (** the attributes [serialize] emits after ["cls"] *)
  res_attrs : pydict;
}.

(** Identity of a live [RunResults] object *)
Abbreviation oid := nat.

(** The root dataset: the run documents of its [_doc] (the field named by
    [_runs_field]), its results cache (the field named by
    [_results_cache_field]), and the [RunResults] objects of the process,
    which the cache and the callers share by reference. *)
Record Dataset : Type := {
  run_docs : gmap string RunDocument;
  results_cache : gmap string (option oid);
  objects : gmap oid RunResults;
}.

Definition empty_dataset : Dataset :=
  {| run_docs := ∅; results_cache := ∅; objects := ∅ |}.

(** *** Stateful computations that may raise

    A mutation made before an exception is raised stays made, so the state
    is returned on both outcomes. *)

Definition M (A : Type) : Type := Dataset -> result A * Dataset.

Definition ret {A} (a : A) : M A := fun st => (inr a, st).

Definition raise {A} (e : exn) : M A := fun st => (inl e, st).

Definition bind {A B} (m : M A) (k : A -> M B) : M B :=
  fun st =>
    match m st with
    | (inl e, st') => (inl e, st')
    | (inr a, st') => k a st'
    end.

(** [try: m  except ...:] with the outcome handed to the continuation *)
Definition attempt {A} (m : M A) : M (result A) :=
  fun st => let (r, st') := m st in (inr r, st').

Definition lift {A} (r : result A) : M A := fun st => (r, st).

Definition gets {A} (f : Dataset -> A) : M A := fun st => (inr (f st), st).

Definition modify (f : Dataset -> Dataset) : M unit :=
  fun st => (inr tt, f st).

Declare Scope run_scope.
Delimit Scope run_scope with run.
Notation "x <- m ;; k" := (bind m (fun x => k))
  (at level 20, m at level 99, k at level 200, only parsing) : run_scope.
Notation "m ;; k" := (bind m (fun _ => k))
  (at level 100, k at level 200, right associativity, only parsing)
  : run_scope.
Open Scope run_scope.

Definition set_run_docs (f : gmap string RunDocument -> gmap string RunDocument)
    (st : Dataset) : Dataset :=
  {| run_docs := f (run_docs st);
     results_cache := results_cache st;
     objects := objects st |}.

Definition set_results_cache
    (f : gmap string (option oid) -> gmap string (option oid))
    (st : Dataset) : Dataset :=
  {| run_docs := run_docs st;
     results_cache := f (results_cache st);
     objects := objects st |}.

Definition set_objects (f : gmap oid RunResults -> gmap oid RunResults)
    (st : Dataset) : Dataset :=
  {| run_docs := run_docs st;
     results_cache := results_cache st;
     objects := f (objects st) |}.

(** *** What the module takes from outside: library functions, the class
    registry, and the methods that [Run] subclasses override *)

Class Env : Type := {
  (** [foc.VERSION] *)
  VERSION : string;
  (** [str.isidentifier] *)
  isidentifier : string -> bool;
  (** whether [etau.get_class(name)] resolves *)
  get_class : string -> bool;
  (** [issubclass(c, t)] on resolved classes *)
  issubclass : string -> string -> bool;
  (** the constructor call of [from_dict], on the class named and the
      remaining keywords: the method and attributes of the new config *)
  config_init : string -> pydict -> result (string * pydict);
  (** [json_util.dumps(...).encode()] and [json_util.loads(....decode())];
      a JSON null is [None] *)
  json_dumps : pydict -> string;
  json_loads : string -> result (option pydict);
  (** [fov.DatasetView._build(dataset, stage_dicts)] *)
  DatasetView_build : list (option pydict) -> result SampleCollection;
  (** [run_results_cls._from_dict(d, samples, config, key)] *)
  results_from_dict :
    string -> pydict -> SampleCollection -> RunConfig -> string ->
    result RunResults;
  (** [config.load_credentials], on its keyword arguments *)
  load_credentials : RunConfig -> pydict -> result RunConfig;
  (** [getattr(config, name, None) != value] for a [name] that is not one
      of the attributes [serialize] emits: a property such as [run_cls],
      a method, a private or class attribute, or no attribute at all;
      the lookup may raise *)
  other_attr_ne : RunConfig -> string -> pyval -> result bool;
  (** [run._validate_run], [run.rename] and [run.cleanup] *)
  _validate_run : Run -> SampleCollection -> string -> RunInfo -> M unit;
  rename : Run -> SampleCollection -> string -> string -> M unit;
  cleanup : Run -> SampleCollection -> string -> M unit;
}.

(** *** The classes of the module

    The functions follow the source statement by statement.  The calls
    that write through to the database ([run_doc.save()],
    [run_doc.delete()], [dataset.save()], and the GridFS [delete()] of a
    document already taken out of the dataset) do not change the
    in-memory dataset, from which every read of this module is served;
    they have no counterpart below.  A bare [except:] and an
    [except Exception:] catch the same exceptions here.  The hooks of
    [Env] may change the dataset in any way. *)

Section Operations.
Context `{E : Env}.

(** [sorted(keys)] on strings: a stable merge sort *)
Definition sorted (keys : list string) : list string :=
  merge_sort String.le keys.

(** [key in keys] *)
Definition contains (key : string) (keys : list string) : bool :=
  bool_decide (key ∈ keys).

Definition etau_get_class (name : string) : result string :=
  if get_class name then inr name else inl (ClassNotFoundError name).

(** **** RunConfig *)

(** [attributes()] puts ["method"] and ["cls"] first *)
Definition serialize (c : RunConfig) : pydict :=
  ("method", VStr (cfg_method c)) :: ("cls", VStr (cfg_cls c)) :: cfg_attrs c.

(** The [run_cls] property: the class named by [cls] without its
    ["Config"] suffix *)
Definition run_cls (c : RunConfig) : result string :=
  etau_get_class (drop_last (String.length "Config") (cfg_cls c)).

Definition build (c : RunConfig) : result Run :=
  rbind (run_cls c) (fun t => inr {| run_type := t; run_config := c |}).

(** [d.pop(k)] *)
Definition dict_pop (k : string) (d : pydict) : result (pyval * pydict) :=
  match dict_get k d with
  | Some v => inr (v, dict_remove k d)
  | None => inl (KeyError k)
  end.

Definition RunConfig_from_dict (d : pydict) : result RunConfig :=
  rbind (dict_pop "method" d) (fun p1 =>
  rbind (dict_pop "cls" p1.2) (fun p2 =>
  rbind (match p2.1 with
         | VStr name => etau_get_class name
         | _ => inl (ForeignError "get_class")
         end) (fun config_cls =>
  rbind (config_init config_cls p2.2) (fun c =>
  inr {| cfg_cls := config_cls; cfg_method := c.1; cfg_attrs := c.2 |})))).

(** **** RunInfo *)

Definition RunInfo_from_doc (doc : RunDocument) : result RunInfo :=
  rbind (RunConfig_from_dict (doc_config doc)) (fun config =>
  inr {| info_key := doc_key doc;
         info_version := doc_version doc;
         info_timestamp := doc_timestamp doc;
         info_config := config |}).

(** **** Run *)

Definition _get_run_doc (samples : SampleCollection) (key : string)
    : M RunDocument :=
  docs <- gets run_docs ;;
  match docs !! key with
  | Some run_doc => ret run_doc
  | None => raise (NoSuchRunError key)
  end.

(** [run_doc.version or "????"] *)
Definition version_or_unknown (v : option string) : string :=
  match v with
  | Some s => if String.eqb s "" then "????" else s
  | None => "????"
  end.

Definition get_run_info (samples : SampleCollection) (key : string)
    : M RunInfo :=
  run_doc <- _get_run_doc samples key ;;
  match RunInfo_from_doc run_doc with
  | inr run_info => ret run_info
  | inl e =>
      if bool_decide (doc_version run_doc = Some VERSION)
      then raise e
      else raise (InfoVersionError key
                    (version_or_unknown (doc_version run_doc)) VERSION e)
  end.

(** The [type] argument of [list_runs]: a class or the name of one *)
Inductive type_arg : Type :=
| TypeName (name : string)
| TypeClass (c : string).

Definition resolve_type (type : option type_arg) : result (option string) :=
  match type with
  | Some (TypeName name) => rbind (etau_get_class name) (fun c => inr (Some c))
  | Some (TypeClass c) => inr (Some c)
  | None => inr None
  end.

(** [getattr(config, name, None) != value]: the attributes that
    [serialize] emits hold the values it emits; the others are the
    business of the config's class. *)
Definition attr_ne (config : RunConfig) (name : string) (value : pyval)
    : result bool :=
  match dict_get name (serialize config) with
  | Some v => inr (negb (py_eq v value))
  | None => other_attr_ne config name value
  end.

(** [any(getattr(config, key, None) != value
         for key, value in kwargs.items())]: the generator is consumed up
    to the first difference, so a later lookup that would raise is not
    made. *)
Fixpoint any_attr_ne (config : RunConfig) (kwargs : pydict) : result bool :=
  match kwargs with
  | [] => inr false
  | (name, value) :: kwargs' =>
      rbind (attr_ne config name value) (fun ne =>
      if (ne : bool) then inr true else any_attr_ne config kwargs')
  end.

(** The two tests of the loop of [list_runs] that follow its [try] block:
    [true] when the key is kept. *)
Definition list_runs_keep (type : option string) (kwargs : pydict)
    (config : RunConfig) : result bool :=
  rbind (match type with
         | Some t => rbind (run_cls config) (fun c => inr (issubclass c t))
         | None => inr true
         end) (fun is_sub =>
  if negb is_sub then inr false
  else rbind (any_attr_ne config kwargs) (fun differs =>
       inr (negb differs))).

Fixpoint list_runs_loop (samples : SampleCollection) (type : option string)
    (kwargs : pydict) (todo keys : list string) : M (list string) :=
  match todo with
  | [] => ret keys
  | key :: todo' =>
      r <- attempt (get_run_info samples key) ;;
      match r with
      | inl _ => list_runs_loop samples type kwargs todo' keys
      | inr run_info =>
          keep <- lift (list_runs_keep type kwargs (info_config run_info)) ;;
          if (keep : bool)
          then list_runs_loop samples type kwargs todo' (keys ++ [key])
          else list_runs_loop samples type kwargs todo' keys
      end
  end.

(** The keys of a dict; the order of iteration is not modelled, the
    callers sort. *)
Definition dict_keys {V} (m : gmap string V) : list string :=
  elements (dom m).

Definition list_runs (samples : SampleCollection) (type : option type_arg)
    (kwargs : pydict) : M (list string) :=
  docs <- gets run_docs ;;
  type' <- lift (resolve_type type) ;;
  keys <- (if bool_decide (type' ≠ None) || negb (bool_decide (kwargs = []))
           then list_runs_loop samples type' kwargs (dict_keys docs) []
           else ret (dict_keys docs)) ;;
  ret (sorted keys).

(** [results_cache.pop(key, None)]: an absent key and a key cached with
    [None] both give [None] *)
Definition cache_pop (key : string) : M (option oid) :=
  cached <- gets (fun st => results_cache st !! key) ;;
  modify (set_results_cache (delete key)) ;;
  ret (mjoin cached).

(** [run_results._key = new_key] *)
Definition set_key (new_key : option string) (o : RunResults) : RunResults :=
  {| res_cls := res_cls o; res_samples := res_samples o;
     res_config := res_config o; res_backend := res_backend o;
     _key := new_key; res_attrs := res_attrs o |}.

Definition delete_run (samples : SampleCollection) (key : string) : M unit :=
  run_doc <- _get_run_doc samples key ;;
  attempt (run_info <- get_run_info samples key ;;
           run <- lift (build (info_config run_info)) ;;
           cleanup run samples key) ;;
  modify (set_run_docs (delete key)) ;;
  run_results <- cache_pop key ;;
  match run_results with
  | Some r => modify (set_objects (alter (set_key None) r))
  | None => ret tt
  end.

Definition validate_run (self : Run) (samples : SampleCollection)
    (key : option string) (overwrite : bool) : M unit :=
  match key with
  | None => raise (InvalidKeyError None)
  | Some k =>
      if negb (isidentifier k) then raise (InvalidKeyError (Some k))
      else
        keys <- list_runs samples None [] ;;
        if negb (contains k keys) then ret tt
        else if negb overwrite then raise (AlreadyExistsError k)
        else
          r <- attempt (get_run_info samples k) ;;
          match r with
          | inl _ => ret tt
          | inr existing_info =>
              if bool_decide (cfg_cls (run_config self)
                              ≠ cfg_cls (info_config existing_info))
              then raise (TypeMismatchError k
                            (cfg_cls (info_config existing_info))
                            (cfg_cls (run_config self)))
              else _validate_run self samples k existing_info
          end
  end.

Definition save_run_info (samples : SampleCollection) (run_info : RunInfo)
    (overwrite : bool) : M unit :=
  let key := info_key run_info in
  keys <- list_runs samples None [] ;;
  (if contains key keys
   then if overwrite then delete_run samples key
        else raise (AlreadyExistsError key)
   else ret tt) ;;
  let run_doc :=
    {| doc_key := key;
       doc_version := info_version run_info;
       doc_timestamp := info_timestamp run_info;
       doc_config := serialize (info_config run_info);
       doc_view_stages := serialized_view samples;
       doc_results := None |} in
  modify (set_run_docs (insert key run_doc)).

(** [now] is the value of [datetime.datetime.utcnow()] *)
Definition register_run (self : Run) (samples : SampleCollection)
    (key : option string) (overwrite : bool) (now : Z) : M unit :=
  match key with
  | None => ret tt
  | Some k =>
      validate_run self samples key overwrite ;;
      let run_info :=
        {| info_key := k; info_version := Some VERSION;
           info_timestamp := now; info_config := run_config self |} in
      save_run_info samples run_info true
  end.

Definition set_doc_key (new_key : string) (d : RunDocument) : RunDocument :=
  {| doc_key := new_key; doc_version := doc_version d;
     doc_timestamp := doc_timestamp d; doc_config := doc_config d;
     doc_view_stages := doc_view_stages d; doc_results := doc_results d |}.

Definition set_doc_config (config : pydict) (d : RunDocument) : RunDocument :=
  {| doc_key := doc_key d; doc_version := doc_version d;
     doc_timestamp := doc_timestamp d; doc_config := config;
     doc_view_stages := doc_view_stages d; doc_results := doc_results d |}.

Definition set_doc_results (results : option string) (d : RunDocument)
    : RunDocument :=
  {| doc_key := doc_key d; doc_version := doc_version d;
     doc_timestamp := doc_timestamp d; doc_config := doc_config d;
     doc_view_stages := doc_view_stages d; doc_results := results |}.

(** [run_docs[key]] and [run_docs.pop(key)] raise [KeyError] *)
Definition run_docs_item (key : string) : M RunDocument :=
  docs <- gets run_docs ;;
  match docs !! key with
  | Some run_doc => ret run_doc
  | None => raise (KeyError key)
  end.

Definition update_run_key (samples : SampleCollection) (key new_key : string)
    : M unit :=
  keys <- list_runs samples None [] ;;
  if contains new_key keys then raise (KeyTakenError new_key)
  else
    attempt (run_info <- get_run_info samples key ;;
             run <- lift (build (info_config run_info)) ;;
             rename run samples key new_key) ;;
    run_doc <- run_docs_item key ;;
    modify (set_run_docs (delete key)) ;;
    modify (set_run_docs (insert new_key (set_doc_key new_key run_doc))) ;;
    run_results <- cache_pop key ;;
    match run_results with
    | Some r =>
        modify (set_objects (alter (set_key (Some new_key)) r)) ;;
        modify (set_results_cache (insert new_key (Some r)))
    | None => ret tt
    end.

Definition update_run_config (samples : SampleCollection)
    (key : option string) (config : RunConfig) : M unit :=
  match key with
  | None => ret tt
  | Some k =>
      run_docs_item k ;;
      modify (set_run_docs (alter (set_doc_config (serialize config)) k))
  end.

(** Reading an attribute of the object a reference points to.  A method
    is only ever called on a live object; the error branch is there to
    make the function total. *)
Definition deref (r : oid) : M RunResults :=
  objs <- gets objects ;;
  match objs !! r with
  | Some o => ret o
  | None => raise (ForeignError "dangling reference")
  end.

(** [RunResults.attributes()] puts ["cls"] first *)
Definition RunResults_serialize (o : RunResults) : pydict :=
  ("cls", VStr (res_cls o)) :: res_attrs o.

Definition save_run_results (samples : SampleCollection)
    (key : option string) (run_results : option oid)
    (overwrite cache : bool) : M unit :=
  match key with
  | None => ret tt
  | Some k =>
      run_doc <- run_docs_item k ;;
      (match doc_results run_doc with
       | Some _ =>
           if overwrite
           then modify (set_run_docs (alter (set_doc_results None) k))
           else raise (AlreadyHasResultsError k)
       | None => ret tt
       end) ;;
      (match run_results with
       | None => modify (set_run_docs (alter (set_doc_results None) k))
       | Some r =>
           o <- deref r ;;
           let results_bytes := json_dumps (RunResults_serialize o) in
           modify (set_run_docs
                     (alter (set_doc_results (Some results_bytes)) k))
       end) ;;
      (if cache
       then modify (set_results_cache (insert k run_results))
       else ret tt)
  end.

(** [key in results_cache]; [None] is never a key of the cache *)
Definition has_cached_run_results (samples : SampleCollection)
    (key : option string) : M bool :=
  cache <- gets results_cache ;;
  ret (match key with
       | Some k => bool_decide (is_Some (cache !! k))
       | None => false
       end).

Fixpoint loads_all (l : list string) : result (list (option pydict)) :=
  match l with
  | [] => inr []
  | s :: l' =>
      rbind (json_loads s) (fun d =>
      rbind (loads_all l') (fun ds => inr (d :: ds)))
  end.

(** [load_run_view] with [select_fields=False], its default and the way
    [load_run_results] calls it *)
Definition load_run_view (samples : SampleCollection) (key : string)
    : M SampleCollection :=
  run_doc <- _get_run_doc samples key ;;
  stage_dicts <- lift (loads_all (doc_view_stages run_doc)) ;;
  lift (DatasetView_build stage_dicts).

(** A new object, at an identity no live object has *)
Definition new_object (o : RunResults) : M oid :=
  objs <- gets objects ;;
  let r := fresh (dom objs) in
  modify (set_objects (insert r o)) ;;
  ret r.

Definition RunResults_from_dict (d : option pydict)
    (samples : SampleCollection) (config : RunConfig) (key : string)
    : M (option oid) :=
  match d with
  | None => ret None
  | Some d =>
      c <- lift (match dict_get "cls" d with
                 | Some v => inr v
                 | None => inl (KeyError "cls")
                 end) ;;
      run_results_cls <-
        lift (match c with
              | VStr name => etau_get_class name
              | _ => inl (ForeignError "get_class")
              end) ;;
      o <- lift (results_from_dict run_results_cls d samples config key) ;;
      r <- new_object o ;;
      ret (Some r)
  end.

Definition load_run_results (samples : SampleCollection) (key : string)
    (cache load_view : bool) (kwargs : pydict) : M (option oid) :=
  cached <- gets (fun st => results_cache st !! key) ;;
  match (if cache then cached else None) with
  | Some run_results => ret run_results
  | None =>
      run_doc <- _get_run_doc samples key ;;
      match doc_results run_doc with
      | None => ret None
      | Some blob =>
          run_info <- get_run_info samples key ;;
          config <- lift (load_credentials (info_config run_info) kwargs) ;;
          run_samples <- (if load_view then load_run_view samples key
                          else ret root_dataset) ;;
          d <- lift (json_loads blob) ;;
          r <- attempt (RunResults_from_dict d run_samples config key) ;;
          run_results <-
            match r with
            | inr run_results => ret run_results
            | inl e =>
                if bool_decide (doc_version run_doc = Some VERSION)
                then raise e
                else raise (ResultsVersionError key
                              (version_or_unknown (doc_version run_doc))
                              VERSION e)
            end ;;
          (if cache
           then modify (set_results_cache (insert key run_results))
           else ret tt) ;;
          ret run_results
      end
  end.

(** **** RunResults *)

(** [self.backend]; calling a method on [None] raises *)
Definition backend_of (o : RunResults) : M Run :=
  match res_backend o with
  | Some b => ret b
  | None => raise (ForeignError "AttributeError")
  end.

Definition RunResults_save (self : oid) : M unit :=
  o <- deref self ;;
  backend_of o ;;
  cache <- has_cached_run_results (res_samples o) (_key o) ;;
  save_run_results (res_samples o) (_key o) (Some self) true cache.

End Operations.

(** *** A small concrete environment for the examples

    Two run classes [pkg.Foo] and [pkg.Bar] with their configs, one
    results class, identifiers of the ASCII fragment, hooks that do
    nothing.  A results blob holds the name of the results class only. *)

Definition demo_classes : list string :=
  ["pkg.FooConfig"; "pkg.Foo"; "pkg.BarConfig"; "pkg.Bar"; "pkg.FooResults"].

(** The members of a config that are not data: the [run_cls] property and
    the methods of [RunConfig]; none of them equals a JSON value. *)
Definition demo_members : list string :=
  ["run_cls"; "load_credentials"; "build"; "attributes"; "from_dict"].

Definition demo_dumps (d : pydict) : string :=
  match dict_get "cls" d with
  | Some (VStr c) => c
  | _ => "null"
  end.

Definition demo_loads (s : string) : result (option pydict) :=
  if String.eqb s "null" then inr None else inr (Some [("cls", VStr s)]).

Definition demo_env : Env := {|
  VERSION := "0.21.0";
  isidentifier := ascii_isidentifier;
  get_class := fun name => bool_decide (name ∈ demo_classes);
  issubclass := String.eqb;
  config_init := fun _ d => inr ("demo", d);
  json_dumps := demo_dumps;
  json_loads := demo_loads;
  DatasetView_build := fun _ => inr root_dataset;
  results_from_dict := fun c d samples config key =>
    inr {| res_cls := c; res_samples := samples; res_config := Some config;
           res_backend := None; _key := Some key; res_attrs := [] |};
  load_credentials := fun c _ => inr c;
  other_attr_ne := fun _ name value =>
    if bool_decide (name ∈ demo_members) then inr true
    else inr (negb (py_eq VNone value));
  _validate_run := fun _ _ _ _ => ret tt;
  rename := fun _ _ _ _ => ret tt;
  cleanup := fun _ _ _ => ret tt;
|}.


Definition foo_config : RunConfig :=
  {| cfg_cls := "pkg.FooConfig"; cfg_method := "demo"; cfg_attrs := [] |}.

Definition bar_config : RunConfig :=
  {| cfg_cls := "pkg.BarConfig"; cfg_method := "demo"; cfg_attrs := [] |}.

Definition foo_run : Run := {| run_type := "pkg.Foo"; run_config := foo_config |}.

Definition bar_run : Run := {| run_type := "pkg.Bar"; run_config := bar_config |}.

(** The state after an operation, whatever its outcome *)
Definition state_after {A} (m : M A) (st : Dataset) : Dataset := (m st).2.

(** A dataset on which [pkg.Foo] was run under the key ["a"] *)
Definition registered_a : Dataset :=
  state_after
    (register_run (E:=demo_env) foo_run root_dataset (Some "a") true 0)
    empty_dataset.

(** Runs of [pkg.Foo] registered as ["b"], ["c"] and ["a"], in that order *)
Definition registered_bca : Dataset :=
  state_after
    (register_run (E:=demo_env) foo_run root_dataset (Some "a") true 3)
    (state_after
       (register_run (E:=demo_env) foo_run root_dataset (Some "c") true 2)
       (state_after
          (register_run (E:=demo_env) foo_run root_dataset (Some "b") true 1)
          empty_dataset)).





Definition foo_results : RunResults :=
  {| res_cls := "pkg.FooResults"; res_samples := root_dataset;
     res_config := Some foo_config; res_backend := Some foo_run;
     _key := Some "a"; res_attrs := [] |}.

(** The run ["a"] with saved results, which are also in the cache *)
Definition cached_a : Dataset :=
  state_after
    (save_run_results (E:=demo_env) root_dataset (Some "a") (Some 0%nat)
       true true)
    (set_objects (insert 0%nat foo_results) registered_a).

(** The document of ["a"] in [cached_a] *)
Definition cached_a_doc : RunDocument :=
  {| doc_key := "a"; doc_version := Some "0.21.0"; doc_timestamp := 0;
     doc_config := [("method", VStr "demo"); ("cls", VStr "pkg.FooConfig")];
     doc_view_stages := []; doc_results := Some "pkg.FooResults" |}.

(** The run ["a"] with saved results that are not in the cache *)
Definition saved_a : Dataset :=
  state_after
    (save_run_results (E:=demo_env) root_dataset (Some "a") (Some 0%nat)
       true false)
    (set_objects (insert 0%nat foo_results) registered_a).






(** *** The remaining methods *)

Section MoreOperations.
Context `{E : Env}.

(** The loop of [delete_runs], over the keys listed before it starts *)
Fixpoint delete_each (samples : SampleCollection) (keys : list string)
    : M unit :=
  match keys with
  | [] => ret tt
  | key :: keys' => delete_run samples key ;; delete_each samples keys'
  end.

Definition delete_runs (samples : SampleCollection) : M unit :=
  keys <- list_runs samples None [] ;;
  delete_each samples keys.

(** [RunResults.save_config].  With no config, [update_run_config] fails
    on [config.serialize()], which it reaches after [run_docs[key]]. *)
Definition RunResults_save_config (self : oid) : M unit :=
  o <- deref self ;;
  backend_of o ;;
  match res_config o with
  | Some config => update_run_config (res_samples o) (_key o) config
  | None =>
      match _key o with
      | None => ret tt
      | Some k => run_docs_item k ;; raise (ForeignError "AttributeError")
      end
  end.

End MoreOperations.

(** *** Vocabulary of the properties *)

(** A computation that leaves the dataset as it found it *)
Definition quiet {A} (m : M A) : Prop := ∀ st, (m st).2 = st.

(** A computation that keeps a property of the dataset, on every outcome *)
Definition keeps (P : Dataset → Prop) {A} (m : M A) : Prop :=
  ∀ st, P st → P (m st).2.

(** The bookkeeping is consistent: a run document is stored under its own
    key, only registered runs are cached, and what is cached is a live
    object. *)
Definition consistent (st : Dataset) : Prop :=
  map_Forall (λ k d, doc_key d = k) (run_docs st)
  ∧ map_Forall (λ k _, is_Some (run_docs st !! k)) (results_cache st)
  ∧ map_Forall (λ _ v, ∀ r, v = Some r → is_Some (objects st !! r))
      (results_cache st).

(** The hooks of the [Run] subclasses keep a property *)
Definition hooks_keep `{E : Env} (P : Dataset → Prop) : Prop :=
  (∀ run samples k info, keeps P (_validate_run run samples k info))
  ∧ (∀ run samples k new_k, keeps P (rename run samples k new_k))
  ∧ (∀ run samples k, keeps P (cleanup run samples k)).

End Runs.

(** * Properties of the runs framework *)

Module RunsSpec.
Import PyStr Runs.

(** Unfolding of the monad's combinators *)
Ltac mred :=
  cbv beta iota delta [bind ret raise gets modify lift attempt].

Lemma bind_inr {A B} (m : M A) (k : A → M B) st a st1 :
  m st = (inr a, st1) → bind m k st = k a st1.
Proof. unfold bind. by intros ->. Qed.

Lemma bind_inl {A B} (m : M A) (k : A → M B) st e st1 :
  m st = (inl e, st1) → bind m k st = (inl e, st1).
Proof. unfold bind. by intros ->. Qed.

Lemma lift_eq {A} (r r' : result A) st : r = r' → lift r st = (r', st).
Proof. by intros ->. Qed.

Lemma attempt_eq {A} (m : M A) st r st1 :
  m st = (r, st1) → attempt m st = (inr r, st1).
Proof. unfold attempt. by intros ->. Qed.

(** One step of a computation whose first action is known *)
Tactic Notation "mstep" "by" tactic3(tac) :=
  first [ erewrite bind_inr by tac | erewrite bind_inl by tac ].
Tactic Notation "mstep" := mstep by reflexivity.

Section Facts.
Context `{E : Env}.

(** Without filters the listing cannot fail and reads the keys of the
    run documents. *)
Lemma list_runs_all samples st :
  list_runs samples None [] st = (inr (sorted (dict_keys (run_docs st))), st).
Proof. reflexivity. Qed.

Lemma elem_of_sorted k l : k ∈ sorted l ↔ k ∈ l.
Proof. unfold sorted. by rewrite merge_sort_Permutation. Qed.

Lemma elem_of_dict_keys {V} k (m : gmap string V) :
  k ∈ dict_keys m ↔ is_Some (m !! k).
Proof. unfold dict_keys. by rewrite elem_of_elements, elem_of_dom. Qed.

Lemma contains_run_keys k st :
  contains k (sorted (dict_keys (run_docs st))) = true
  ↔ is_Some (run_docs st !! k).
Proof.
  unfold contains. rewrite bool_decide_eq_true, elem_of_sorted.
  apply elem_of_dict_keys.
Qed.

Lemma contains_run_keys_false k st :
  contains k (sorted (dict_keys (run_docs st))) = false
  ↔ run_docs st !! k = None.
Proof.
  rewrite <- not_true_iff_false, contains_run_keys.
  rewrite <- eq_None_not_Some. done.
Qed.

Lemma sorted_strongly l : StronglySorted String.le (sorted l).
Proof. apply StronglySorted_merge_sort; apply _. Qed.

(** Reading a run document or a run info leaves the dataset as it is. *)
Lemma _get_run_doc_state samples k st : (_get_run_doc samples k st).2 = st.
Proof.
  unfold _get_run_doc, bind, gets; simpl. by destruct (run_docs st !! k).
Qed.

Lemma get_run_info_state samples k st : (get_run_info samples k st).2 = st.
Proof.
  unfold get_run_info, _get_run_doc, bind, gets; simpl.
  destruct (run_docs st !! k) as [d|]; simpl; [|done].
  destruct (RunInfo_from_doc d); simpl; [|done].
  by case_bool_decide.
Qed.

Lemma list_runs_loop_state samples type kwargs todo : ∀ keys st,
  (list_runs_loop samples type kwargs todo keys st).2 = st.
Proof.
  induction todo as [|k todo IH]; intros keys st; simpl; [done|].
  unfold bind, attempt, lift.
  pose proof (get_run_info_state samples k st) as Hst.
  destruct (get_run_info samples k st) as [[e|info] st1]; simpl in Hst; subst.
  - apply IH.
  - destruct (list_runs_keep type kwargs (info_config info)) as [e|[]];
      simpl; auto.
Qed.

Lemma list_runs_state samples type kwargs st :
  (list_runs samples type kwargs st).2 = st.
Proof.
  unfold list_runs, bind, gets, lift; simpl.
  destruct (resolve_type type) as [e|type']; simpl; [done|].
  destruct (bool_decide (type' ≠ None) || negb (bool_decide (kwargs = [])));
    simpl; [|done].
  pose proof (list_runs_loop_state samples type' kwargs
                (dict_keys (run_docs st)) [] st) as Hst.
  destruct (list_runs_loop _ _ _ _ _ _) as [[e|keys] st1]; simpl in *; by subst.
Qed.

End Facts.

Section Claims.
Context `{E : Env}.

(** C9: whatever the [type] and keyword filters, a listing that
    [list_runs] returns is sorted in ascending string order; without
    filters it always returns, and with filters it returns whenever the
    [type] name resolves and the run class of every loadable config does.
    This theorem states the order of any returned list. *)
Theorem list_runs_sorted samples type kwargs st keys st' :
  list_runs samples type kwargs st = (inr keys, st') →
  StronglySorted String.le keys.
Proof.
  unfold list_runs, bind, gets, lift; simpl.
  destruct (resolve_type type) as [e|type']; simpl; [done|].
  destruct (if bool_decide (type' ≠ None) || negb (bool_decide (kwargs = []))
            then _ else _) as [[e|l] st1]; simpl; [done|].
  unfold ret. intros [= <- <-]. apply sorted_strongly.
Qed.

(** C10: with [key] equal to [None], [register_run], [save_run_results]
    and [update_run_config] return at once: no exception, and the run
    documents, the results cache and the live objects are untouched;
    [validate_run], which [register_run] skips, would have rejected
    [None]. *)
Theorem none_key_returns_immediately self samples overwrite now
    run_results cache config st :
  register_run self samples None overwrite now st = (inr tt, st)
  ∧ save_run_results samples None run_results overwrite cache st = (inr tt, st)
  ∧ update_run_config samples None config st = (inr tt, st)
  ∧ validate_run self samples None overwrite st = (inl (InvalidKeyError None), st).
Proof. repeat split. Qed.

(** C3: when [new_key] is among the listed runs, [update_run_key] raises
    its "already exists" error before anything is touched: the dataset,
    and with it the document stored under the old key, is returned as it
    was. *)
Theorem update_run_key_taken samples key new_key st keys st0 :
  list_runs samples None [] st = (inr keys, st0) →
  new_key ∈ keys →
  update_run_key samples key new_key st = (inl (KeyTakenError new_key), st)
  ∧ run_docs (state_after (update_run_key samples key new_key) st) !! key
    = run_docs st !! key.
Proof.
  rewrite list_runs_all. intros [= <- <-] Hin.
  assert (update_run_key samples key new_key st
          = (inl (KeyTakenError new_key), st)) as Heq.
  { unfold update_run_key, bind. rewrite list_runs_all.
    unfold contains. by rewrite bool_decide_eq_true_2. }
  split; [done|]. unfold state_after. by rewrite Heq.
Qed.

(** What [delete_run] leaves behind when it returns: the key is gone from
    the run documents and from the results cache.  A registered key is
    always deleted, whatever the [cleanup] hook does. *)
Lemma delete_run_post samples k st r st' :
  delete_run samples k st = (r, st') →
  r = inr tt →
  run_docs st' !! k = None ∧ results_cache st' !! k = None.
Proof.
  unfold delete_run, _get_run_doc, cache_pop. mred.
  destruct (run_docs st !! k) as [d|]; [|by intros [= <- <-] [=]].
  destruct (get_run_info samples k st) as [[e|info] st1].
  - destruct (mjoin _) as [o|]; mred;
      intros [= <- <-] _; simpl; by rewrite !lookup_delete_eq.
  - destruct (build (info_config info)) as [e|run].
    + destruct (mjoin _) as [o|]; mred;
        intros [= <- <-] _; simpl; by rewrite !lookup_delete_eq.
    + destruct (cleanup run samples k st1) as [x st2].
      destruct (mjoin _) as [o|]; mred;
        intros [= <- <-] _; simpl; by rewrite !lookup_delete_eq.
Qed.

Lemma delete_run_registered samples k st :
  is_Some (run_docs st !! k) →
  ∃ st', delete_run samples k st = (inr tt, st').
Proof.
  intros [d Hd]. unfold delete_run, _get_run_doc, cache_pop. mred.
  rewrite Hd.
  destruct (get_run_info samples k st) as [[e|info] st1].
  - destruct (mjoin _); mred; eauto.
  - destruct (build (info_config info)) as [e|run].
    + destruct (mjoin _); mred; eauto.
    + destruct (cleanup run samples k st1) as [x st2].
      destruct (mjoin _); mred; eauto.
Qed.

(** C4: for a registered key, [delete_run] completes, and afterwards the
    key is not in [list_runs] and [has_cached_run_results] is false. *)
Theorem delete_run_removes samples k st :
  is_Some (run_docs st !! k) →
  ∃ st', delete_run samples k st = (inr tt, st')
    ∧ (∃ keys, list_runs samples None [] st' = (inr keys, st') ∧ k ∉ keys)
    ∧ has_cached_run_results samples (Some k) st' = (inr false, st').
Proof.
  intros Hreg. destruct (delete_run_registered samples k st Hreg) as [st' Hdel].
  destruct (delete_run_post _ _ _ _ _ Hdel eq_refl) as [Hdoc Hcache].
  exists st'. split; [done|]. split.
  - eexists. split; [apply list_runs_all|].
    rewrite elem_of_sorted, elem_of_dict_keys, Hdoc. by intros [? [=]].
  - unfold has_cached_run_results. mred.
    rewrite Hcache. by rewrite bool_decide_eq_false_2 by (by intros [? [=]]).
Qed.

Lemma save_run_info_post samples run_info overwrite st st' :
  save_run_info samples run_info overwrite st = (inr tt, st') →
  is_Some (run_docs st' !! info_key run_info).
Proof.
  unfold save_run_info. unfold bind at 1. rewrite list_runs_all.
  unfold bind at 1.
  destruct (if contains _ _ then _ else _) as [[e|[]] st1]; [done|].
  unfold modify. intros [= <-]; simpl. rewrite lookup_insert_eq. eauto.
Qed.

(** Registering a fresh identifier always succeeds: the hooks are not
    reached, and the new document is the only change. *)
Lemma register_run_fresh self samples k overwrite now st :
  isidentifier k = true →
  run_docs st !! k = None →
  register_run self samples (Some k) overwrite now st
  = (inr tt,
     set_run_docs
       (insert k {| doc_key := k; doc_version := Some VERSION;
                    doc_timestamp := now;
                    doc_config := serialize (run_config self);
                    doc_view_stages := serialized_view samples;
                    doc_results := None |}) st).
Proof.
  intros Hid Hfresh%contains_run_keys_false.
  unfold register_run, validate_run, save_run_info.
  rewrite Hid. simpl.
  repeat (unfold bind at 1; rewrite ?list_runs_all, ?Hfresh; simpl).
  reflexivity.
Qed.

(** C1: when [register_run] returns normally for a key that is a valid
    identifier, the key is in the unfiltered [list_runs] of the
    collection. *)
Theorem register_run_listed self samples k overwrite now st st' :
  isidentifier k = true →
  register_run self samples (Some k) overwrite now st = (inr tt, st') →
  ∃ keys, list_runs samples None [] st' = (inr keys, st') ∧ k ∈ keys.
Proof.
  intros _. unfold register_run, bind.
  destruct (validate_run _ _ _ _ st) as [[e|[]] st1]; simpl; [done|].
  intros Hsave%save_run_info_post; simpl in Hsave.
  eexists. split; [apply list_runs_all|].
  by rewrite elem_of_sorted, elem_of_dict_keys.
Qed.


Lemma load_run_view_state samples k st : (load_run_view samples k st).2 = st.
Proof.
  unfold load_run_view, _get_run_doc. mred.
  destruct (run_docs st !! k) as [d|]; [|done].
  destruct (loads_all (doc_view_stages d)); done.
Qed.

(** A failed [from_dict] has not created any object. *)
Lemma RunResults_from_dict_error d samples config k st e st' :
  RunResults_from_dict d samples config k st = (inl e, st') → st' = st.
Proof.
  unfold RunResults_from_dict, new_object. mred.
  destruct d as [d|]; [|done].
  destruct (dict_get "cls" d) as [c|]; [|by intros [= _ <-]].
  destruct (match c with VStr name => etau_get_class name | _ => _ end)
    as [e1|cls]; [by intros [= _ <-]|].
  destruct (results_from_dict cls d samples config k); [by intros [= _ <-]|done].
Qed.




End Claims.

(** ** The claims on concrete datasets *)

Lemma register_run_listed_witness :
  isidentifier (Env:=demo_env) "a" = true
  ∧ ∃ keys,
      list_runs (E:=demo_env) root_dataset None [] registered_a
        = (inr keys, registered_a)
      ∧ "a" ∈ keys.
Proof.
  split; [reflexivity|].
  apply (register_run_listed (E:=demo_env) foo_run root_dataset "a" true 0
           empty_dataset); [reflexivity|].
  vm_compute. reflexivity.
Defined.



Lemma update_run_key_taken_witness :
  update_run_key (E:=demo_env) root_dataset "a" "b" registered_bca
  = (inl (KeyTakenError "b"), registered_bca)
  ∧ run_docs (state_after (update_run_key (E:=demo_env) root_dataset "a" "b")
                registered_bca) !! "a"
    = run_docs registered_bca !! "a".
Proof.
  apply (update_run_key_taken (E:=demo_env) root_dataset "a" "b"
           registered_bca ["a"; "b"; "c"] registered_bca);
    [vm_compute; reflexivity | compute_done].
Defined.

Lemma delete_run_removes_witness :
  ∃ st', delete_run (E:=demo_env) root_dataset "a" cached_a = (inr tt, st')
    ∧ (∃ keys, list_runs (E:=demo_env) root_dataset None [] st'
               = (inr keys, st') ∧ "a" ∉ keys)
    ∧ has_cached_run_results root_dataset (Some "a") st'
      = (inr false, st').
Proof.
  apply (delete_run_removes (E:=demo_env) root_dataset "a" cached_a).
  compute_done.
Defined.





Lemma list_runs_sorted_witness :
  list_runs (E:=demo_env) root_dataset (Some (TypeClass "pkg.Foo"))
    [("method", VStr "demo")] registered_bca
  = (inr ["a"; "b"; "c"], registered_bca)
  ∧ StronglySorted String.le ["a"; "b"; "c"].
Proof.
  assert (list_runs (E:=demo_env) root_dataset (Some (TypeClass "pkg.Foo"))
            [("method", VStr "demo")] registered_bca
          = (inr ["a"; "b"; "c"], registered_bca)) as Hrun
    by (vm_compute; reflexivity).
  split; [exact Hrun|].
  exact (list_runs_sorted (E:=demo_env) root_dataset
           (Some (TypeClass "pkg.Foo")) [("method", VStr "demo")]
           registered_bca ["a"; "b"; "c"] registered_bca Hrun).
Defined.

End RunsSpec.

(** * Properties of the 3D scene nodes *)

Module ThreedSpec.
Import PyStr Threed.

(** ** Suffixes *)

Lemma append_cons c s1 s2 :
  String.append (String c s1) s2 = String c (String.append s1 s2).
Proof. reflexivity. Qed.

Lemma length_append s1 s2 :
  String.length (String.append s1 s2) = String.length s1 + String.length s2.
Proof. induction s1 as [|c s1 IH]; simpl; [done|]. by rewrite IH. Qed.

Lemma substring_0_length s : substring 0 (String.length s) s = s.
Proof. induction s as [|c s IH]; simpl; [done|]. by rewrite IH. Qed.

Lemma substring_append_r s1 s2 :
  substring (String.length s1) (String.length s2) (String.append s1 s2) = s2.
Proof.
  induction s1 as [|c s1 IH]; simpl; [apply substring_0_length|apply IH].
Qed.

Lemma append_substring s : ∀ n,
  (n ≤ String.length s)%nat →
  s = String.append (substring 0 n s) (substring n (String.length s - n) s).
Proof.
  induction s as [|c s IH]; intros [|n] Hn; simpl in *; try done.
  - by rewrite substring_0_length.
  - rewrite append_cons. f_equal. apply IH. lia.
Qed.

Lemma length_lower s : String.length (lower s) = String.length s.
Proof. induction s as [|c s IH]; simpl; [done|]. by rewrite IH. Qed.

Lemma lower_append s1 s2 :
  lower (String.append s1 s2) = String.append (lower s1) (lower s2).
Proof. induction s1 as [|c s1 IH]; simpl; [done|]. by rewrite IH. Qed.

Lemma substring_lower s : ∀ n m,
  substring n m (lower s) = lower (substring n m s).
Proof.
  induction s as [|c s IH]; intros [|n] [|m]; simpl; try done;
    by rewrite IH.
Qed.

Lemma endswith_append s suffix :
  endswith (String.append s suffix) suffix = true.
Proof.
  unfold endswith. rewrite length_append.
  replace (String.length s + String.length suffix - String.length suffix)
    with (String.length s) by lia.
  rewrite substring_append_r, String.eqb_refl, andb_true_r.
  apply Nat.leb_le. lia.
Qed.

(** [endswith] is the suffix relation. *)
Lemma endswith_iff s suffix :
  endswith s suffix = true ↔ ∃ stem, s = String.append stem suffix.
Proof.
  split.
  - unfold endswith. intros [Hlen Heq]%andb_true_iff.
    apply Nat.leb_le in Hlen. apply String.eqb_eq in Heq.
    exists (substring 0 (String.length s - String.length suffix) s).
    pose proof (append_substring s (String.length s - String.length suffix))
      as Hsplit.
    replace (String.length s - (String.length s - String.length suffix))
      with (String.length suffix) in Hsplit by lia.
    rewrite Heq in Hsplit. apply Hsplit. lia.
  - intros [stem ->]. apply endswith_append.
Qed.

(** The test the constructors make is the case-insensitive extension
    test. *)
Lemma has_extension_iff path ext :
  endswith (lower path) ext = true ↔ has_extension path ext.
Proof.
  split.
  - unfold endswith. rewrite length_lower.
    intros [Hlen Heq]%andb_true_iff.
    apply Nat.leb_le in Hlen. apply String.eqb_eq in Heq.
    exists (substring 0 (String.length path - String.length ext) path),
      (substring (String.length path - String.length ext)
         (String.length ext) path).
    split; [|by rewrite <- substring_lower].
    pose proof (append_substring path
                  (String.length path - String.length ext)) as Hsplit.
    replace (String.length path - (String.length path - String.length ext))
      with (String.length ext) in Hsplit by lia.
    apply Hsplit. lia.
  - intros (stem & suffix & -> & <-).
    rewrite lower_append. apply endswith_append.
Qed.

Lemma not_has_extension path ext :
  ¬ has_extension path ext → endswith (lower path) ext = false.
Proof.
  rewrite <- has_extension_iff. by destruct (endswith (lower path) ext).
Qed.

(** ** Keys of merged dicts *)

Lemma elem_of_keys_dict_set x k v (d : pydict) :
  x ∈ keys (dict_set k v d) ↔ x = k ∨ x ∈ keys d.
Proof.
  unfold keys. induction d as [|[k' v'] d IH]; simpl.
  - rewrite elem_of_cons, elem_of_nil. tauto.
  - destruct (String.eqb_spec k' k) as [->|Hne]; simpl;
      rewrite !elem_of_cons; [tauto|]. rewrite IH. tauto.
Qed.

Lemma elem_of_keys_dict_merge x (e : pydict) : ∀ d : pydict,
  x ∈ keys (dict_merge d e) ↔ x ∈ keys d ∨ x ∈ keys e.
Proof.
  unfold dict_merge.
  induction e as [|[k v] e IH]; intros d; simpl.
  - change (keys []) with (@nil string). rewrite elem_of_nil. tauto.
  - rewrite IH, elem_of_keys_dict_set.
    change (keys ((k, v) :: e)) with (k :: keys e).
    rewrite elem_of_cons. tauto.
Qed.

Section Claims.
Context `{B : Base}.

(** The point cloud and the lights emit camel-case keys, the lights as
    long as the base class adds none of another kind. *)
Lemma PointCloud_keys_camel_case (p : PointCloud) :
  Forall (λ k, is_camel_case k = true) (keys (PointCloud_to_dict_extra p)).
Proof.
  unfold PointCloud_to_dict_extra.
  destruct (_pre_transformed_pcd_path p); simpl; repeat constructor.
Qed.

Lemma Light_keys_camel_case (l : Light) :
  Forall (λ k, is_camel_case k = true)
    (keys (Object3D_to_dict_extra (light_base l))) →
  Forall (λ k, is_camel_case k = true) (keys (Light_to_dict_extra l)).
Proof.
  rewrite !Forall_forall. intros Hbase k.
  unfold Light_to_dict_extra. rewrite elem_of_keys_dict_merge.
  intros [Hk|Hk]; [by apply Hbase|].
  change (k ∈ ["color"; "intensity"]) in Hk.
  rewrite !elem_of_cons, elem_of_nil in Hk. by destruct Hk as [->|[->|[]]].
Qed.

(** Every key a mesh node emits has an underscore in it. *)
Lemma mesh_keys_not_camel_case (n : Node) :
  match n with
  | NObjMesh _ | NFBXMesh _ | NGLTFMesh _ | NPlyMesh _ | NStlMesh _ =>
      Forall (λ k, is_camel_case k = false) (keys (_to_dict_extra n))
  | _ => True
  end.
Proof. destruct n; simpl; try done; repeat constructor. Qed.

(** C6, as the code has it: once the base initialiser has accepted the
    name and keywords, each constructor raises its [ValueError] when the
    path lacks the extension of its class, letter case aside, and returns
    the node when the path has it, provided for [ObjMesh] that the
    material path, if given, ends with [.mtl] in lower case, and for
    [PointCloud] that a material dict converts. *)
Theorem path_extension_validated name path kwargs base :
  Object3D_init name kwargs = inr base →
  ((¬ has_extension path ".obj" →
      ∀ mtl, ObjMesh_init name path mtl kwargs
             = inl (ValueError "OBJ mesh must be a .obj file"))
   ∧ (has_extension path ".obj" →
      ∀ mtl, (∀ m, mtl = Some m → endswith m ".mtl" = true) →
        ObjMesh_init name path mtl kwargs
        = inr {| obj_base := base; obj_path := path; mtl_path := mtl |}))
  ∧ ((¬ has_extension path ".fbx" →
        FBXMesh_init name path kwargs
        = inl (ValueError "FBX mesh must be a .fbx file"))
     ∧ (has_extension path ".fbx" →
        FBXMesh_init name path kwargs
        = inr {| fbx_base := base; fbx_gltf_path := path |}))
  ∧ ((¬ has_extension path ".gltf" → ¬ has_extension path ".glb" →
        GLTFMesh_init name path kwargs
        = inl (ValueError "gLTF mesh must be a .gltf or .glb file"))
     ∧ (has_extension path ".gltf" ∨ has_extension path ".glb" →
        GLTFMesh_init name path kwargs
        = inr {| gltf_base := base; gltf_path := path |}))
  ∧ ((¬ has_extension path ".ply" →
        PlyMesh_init name path kwargs
        = inl (ValueError "PLY mesh must be a .ply file"))
     ∧ (has_extension path ".ply" →
        PlyMesh_init name path kwargs
        = inr {| ply_base := base; ply_path := path |}))
  ∧ ((¬ has_extension path ".stl" →
        StlMesh_init name path kwargs
        = inl (ValueError "STL mesh must be a .stl file"))
     ∧ (has_extension path ".stl" →
        StlMesh_init name path kwargs
        = inr {| stl_base := base; stl_path := path |}))
  ∧ ((¬ has_extension path ".pcd" →
        ∀ material flag,
          PointCloud_init name path material flag kwargs
          = inl (ValueError "Point cloud must be a .pcd file"))
     ∧ (has_extension path ".pcd" →
        ∀ material flag m,
          match material with
          | MaterialDict d => PointCloudMaterial_from_dict d
          | MaterialObj m' => inr m'
          | MaterialNone => inr PointCloudMaterial_default
          end = inr m →
          PointCloud_init name path material flag kwargs
          = inr {| pc_base := base; pcd_path := path;
                   default_material := m; flag_for_projection := flag;
                   _pre_transformed_pcd_path := None |})).
Proof.
  intros Hbase.
  unfold ObjMesh_init, FBXMesh_init, GLTFMesh_init, PlyMesh_init,
    StlMesh_init, PointCloud_init.
  rewrite Hbase.
  repeat split.
  - intros Hext%not_has_extension mtl. by rewrite Hext.
  - intros Hext%has_extension_iff mtl Hmtl. rewrite Hext. simpl.
    destruct mtl as [m|]; [|done]. by rewrite (Hmtl m eq_refl).
  - intros Hext%not_has_extension. by rewrite Hext.
  - intros Hext%has_extension_iff. by rewrite Hext.
  - intros H1%not_has_extension H2%not_has_extension. by rewrite H1, H2.
  - intros [Hext%has_extension_iff|Hext%has_extension_iff]; rewrite Hext;
      [done|]. by rewrite orb_true_r.
  - intros Hext%not_has_extension. by rewrite Hext.
  - intros Hext%has_extension_iff. by rewrite Hext.
  - intros Hext%not_has_extension. by rewrite Hext.
  - intros Hext%has_extension_iff. by rewrite Hext.
  - intros Hext%not_has_extension material flag. by rewrite Hext.
  - intros Hext%has_extension_iff material flag m Hm. rewrite Hext. simpl.
    by rewrite Hm.
Qed.

End Claims.

(** C5 does not hold of the meshes: the dict of an [ObjMesh] has the keys
    ["obj_path"] and ["mtl_path"], which are not camel case, and they
    reach the emitted dict whatever the base fields are. *)
Theorem ObjMesh_keys_snake_case :
  let mesh := {| obj_base := "mesh" : @Object3D plain_base;
                 obj_path := "mesh.obj"; mtl_path := None |} in
  ObjMesh_init (B:=plain_base) "mesh" "mesh.obj" None [] = inr mesh
  ∧ keys (_to_dict_extra (NObjMesh mesh)) = ["obj_path"; "mtl_path"]
  ∧ is_camel_case "obj_path" = false
  ∧ is_camel_case "mtl_path" = false
  ∧ ∀ base_fields, "obj_path" ∈ keys (as_dict base_fields (NObjMesh mesh)).
Proof.
  repeat split. intros base_fields. unfold as_dict.
  apply elem_of_keys_dict_merge. right. simpl. apply elem_of_cons. by left.
Qed.

(** C6 as worded fails: a path with the right extension does not make the
    construction succeed when the material path is refused. *)
Lemma path_extension_counterexample :
  has_extension "mesh.obj" ".obj"
  ∧ ObjMesh_init (B:=plain_base) "mesh" "mesh.obj" (Some "mesh.txt") []
    = inl (ValueError "OBJ material must be a .mtl file").
Proof. split; [by apply has_extension_iff|reflexivity]. Qed.

Lemma path_extension_validated_witness :
  ObjMesh_init (B:=plain_base) "mesh" "foo.stl" None []
  = inl (ValueError "OBJ mesh must be a .obj file")
  ∧ ObjMesh_init (B:=plain_base) "mesh" "Mesh.OBJ" (Some "mesh.mtl") []
    = inr {| obj_base := "mesh" : @Object3D plain_base;
             obj_path := "Mesh.OBJ"; mtl_path := Some "mesh.mtl" |}.
Proof.
  split.
  - refine (proj1 (proj1 (path_extension_validated (B:=plain_base)
                            "mesh" "foo.stl" [] "mesh" _)) _ None);
      [reflexivity|].
    intros H%has_extension_iff. discriminate H.
  - refine (proj2 (proj1 (path_extension_validated (B:=plain_base)
                            "mesh" "Mesh.OBJ" [] "mesh" _)) _
              (Some "mesh.mtl") _);
      [reflexivity | by apply has_extension_iff |].
    intros m [= <-]. reflexivity.
Defined.

End ThreedSpec.

(** * Further properties of the runs framework *)

Module RunsMore.
Import PyStr Runs RunsSpec.

Section Facts.
Context `{E : Env}.

Lemma dict_remove_absent k (d : pydict) :
  dict_get k d = None → dict_remove k d = d.
Proof.
  induction d as [|[k' v] d IH]; simpl; [done|].
  destruct (String.eqb k' k); [done|]. intros H. by rewrite IH.
Qed.

(** Loading back what [serialize] wrote, when the class of the config
    resolves and its constructor accepts the attributes it declared. *)
Lemma RunConfig_from_dict_serialize c :
  dict_get "method" (cfg_attrs c) = None →
  dict_get "cls" (cfg_attrs c) = None →
  get_class (cfg_cls c) = true →
  config_init (cfg_cls c) (cfg_attrs c) = inr (cfg_method c, cfg_attrs c) →
  RunConfig_from_dict (serialize c) = inr c.
Proof.
  intros Hm Hc Hcls Hinit. destruct c as [cls method attrs]; simpl in *.
  unfold RunConfig_from_dict, serialize, dict_pop, etau_get_class; simpl.
  rewrite Hcls. unfold rbind.
  rewrite (dict_remove_absent _ _ Hm), (dict_remove_absent _ _ Hc).
  by rewrite Hinit.
Qed.

Lemma get_run_info_loaded samples k st d config :
  run_docs st !! k = Some d →
  RunConfig_from_dict (doc_config d) = inr config →
  get_run_info samples k st
  = (inr {| info_key := doc_key d; info_version := doc_version d;
            info_timestamp := doc_timestamp d; info_config := config |}, st).
Proof.
  intros Hd Hc. unfold get_run_info, _get_run_doc, RunInfo_from_doc. mred.
  by rewrite Hd, Hc.
Qed.

Lemma get_run_info_missing samples k st :
  run_docs st !! k = None →
  get_run_info samples k st = (inl (NoSuchRunError k), st).
Proof.
  intros Hd. unfold get_run_info, _get_run_doc. mred. by rewrite Hd.
Qed.

(** The [try] blocks that run a hook: with a hook that leaves the dataset
    alone, so does the block, and it never raises. *)
Lemma hook_block_quiet samples k (hook : Run → M unit) st :
  (∀ run, quiet (hook run)) →
  ∃ r, attempt (run_info <- get_run_info samples k ;;
                run <- lift (build (info_config run_info)) ;;
                hook run) st = (inr r, st).
Proof.
  intros Hq. mred.
  pose proof (get_run_info_state samples k st) as Hst.
  destruct (get_run_info samples k st) as [[e|info] st1]; simpl in Hst;
    subst st1; [eauto|].
  destruct (build (info_config info)) as [e|run]; [eauto|].
  pose proof (Hq run st) as Hst.
  destruct (hook run st) as [r st1]; simpl in Hst; subst st1. eauto.
Qed.

Lemma save_run_info_doc samples run_info overwrite st st' :
  save_run_info samples run_info overwrite st = (inr tt, st') →
  run_docs st' !! info_key run_info
  = Some {| doc_key := info_key run_info;
            doc_version := info_version run_info;
            doc_timestamp := info_timestamp run_info;
            doc_config := serialize (info_config run_info);
            doc_view_stages := serialized_view samples;
            doc_results := None |}.
Proof.
  unfold save_run_info. unfold bind at 1. rewrite list_runs_all.
  unfold bind at 1.
  destruct (if contains _ _ then _ else _) as [[e|[]] st1]; [done|].
  unfold modify. intros [= <-]; simpl. by rewrite lookup_insert_eq.
Qed.

End Facts.

Section Properties.
Context `{E : Env}.

(** X1: a [register_run] that returns has stored, under the key, a
    document with that key, the running version, the time of the call, the
    serialized config and the view of the collection, and without results,
    also when it replaced a run that had results. *)
Theorem register_run_document self samples k overwrite now st st' :
  register_run self samples (Some k) overwrite now st = (inr tt, st') →
  run_docs st' !! k
  = Some {| doc_key := k; doc_version := Some VERSION;
            doc_timestamp := now;
            doc_config := serialize (run_config self);
            doc_view_stages := serialized_view samples;
            doc_results := None |}.
Proof.
  unfold register_run, bind.
  destruct (validate_run _ _ _ _ st) as [[e|[]] st1]; [done|].
  intros Hsave. exact (save_run_info_doc _ _ _ _ _ Hsave).
Qed.

(** X2: registering and reading back: after a [register_run] that
    returns, [get_run_info] gives the key, the running version, the time
    of the call and the config of the run, provided the config's class
    resolves and its constructor rebuilds the config from the attributes
    it serialized. *)
Theorem register_run_then_get_run_info self samples k overwrite now st st' :
  dict_get "method" (cfg_attrs (run_config self)) = None →
  dict_get "cls" (cfg_attrs (run_config self)) = None →
  get_class (cfg_cls (run_config self)) = true →
  config_init (cfg_cls (run_config self)) (cfg_attrs (run_config self))
  = inr (cfg_method (run_config self), cfg_attrs (run_config self)) →
  register_run self samples (Some k) overwrite now st = (inr tt, st') →
  get_run_info samples k st'
  = (inr {| info_key := k; info_version := Some VERSION;
            info_timestamp := now; info_config := run_config self |}, st').
Proof.
  intros Hm Hc Hcls Hinit Hreg.
  assert (run_docs st' !! k
          = Some {| doc_key := k; doc_version := Some VERSION;
                    doc_timestamp := now;
                    doc_config := serialize (run_config self);
                    doc_view_stages := serialized_view samples;
                    doc_results := None |}) as Hdoc.
  { revert Hreg. unfold register_run, bind.
    destruct (validate_run _ _ _ _ st) as [[e|[]] st1]; [done|].
    intros Hsave. exact (save_run_info_doc _ _ _ _ _ Hsave). }
  rewrite (get_run_info_loaded _ _ _ _ (run_config self) Hdoc); [done|].
  by apply RunConfig_from_dict_serialize.
Qed.

(** X3: renaming a run that does not exist, to a key that is free, raises
    the [KeyError] of [run_docs.pop(key)]; the [rename] hook is not
    reached and the dataset is unchanged. *)
Theorem update_run_key_missing samples key new_key st :
  run_docs st !! key = None →
  run_docs st !! new_key = None →
  update_run_key samples key new_key st = (inl (KeyError key), st).
Proof.
  intros Hkey Hnew%contains_run_keys_false.
  unfold update_run_key. unfold bind at 1. rewrite list_runs_all, Hnew.
  unfold bind at 1, attempt at 1, bind at 1.
  rewrite (get_run_info_missing _ _ _ Hkey).
  unfold run_docs_item. mred. by rewrite Hkey.
Qed.

(** X4: renaming a registered run to a free key, with a [rename] hook
    that leaves the dataset alone: the document moves to the new key and
    records it; results cached under the old key move with it and the
    cached object learns its new key; a key cached with [None] is dropped
    from the cache. *)
Theorem update_run_key_moves samples key new_key st d :
  run_docs st !! key = Some d →
  run_docs st !! new_key = None →
  (∀ run, quiet (rename run samples key new_key)) →
  ∃ st', update_run_key samples key new_key st = (inr tt, st')
    ∧ run_docs st'
      = <[new_key:=set_doc_key new_key d]> (delete key (run_docs st))
    ∧ results_cache st'
      = match results_cache st !! key with
        | Some (Some r) => <[new_key:=Some r]> (delete key (results_cache st))
        | _ => delete key (results_cache st)
        end
    ∧ objects st'
      = match results_cache st !! key with
        | Some (Some r) => alter (set_key (Some new_key)) r (objects st)
        | _ => objects st
        end.
Proof.
  intros Hkey Hnew%contains_run_keys_false Hquiet.
  destruct (hook_block_quiet samples key
              (λ run, rename run samples key new_key) st Hquiet) as [r Hblock].
  unfold update_run_key. unfold bind at 1. rewrite list_runs_all, Hnew.
  mstep by exact Hblock.
  unfold run_docs_item, cache_pop. mred. rewrite Hkey. simpl.
  destruct (results_cache st !! key) as [[o|]|]; simpl; eauto.
Qed.

(** The whole effect of [delete_run] on a registered key when the
    [cleanup] hook leaves the dataset alone. *)
Lemma delete_run_quiet_state samples k st d :
  run_docs st !! k = Some d →
  (∀ run, quiet (cleanup run samples k)) →
  ∃ st', delete_run samples k st = (inr tt, st')
    ∧ run_docs st' = delete k (run_docs st)
    ∧ results_cache st' = delete k (results_cache st)
    ∧ objects st'
      = match results_cache st !! k with
        | Some (Some r) => alter (set_key None) r (objects st)
        | _ => objects st
        end.
Proof.
  intros Hd Hquiet.
  destruct (hook_block_quiet samples k (λ run, cleanup run samples k) st
              Hquiet) as [r Hblock].
  unfold delete_run.
  mstep by (unfold _get_run_doc; mred; rewrite Hd; reflexivity).
  mstep by exact Hblock.
  unfold cache_pop. mred. simpl.
  destruct (results_cache st !! k) as [[o|]|]; simpl; eauto.
Qed.

(** X5: deleting twice: after a [delete_run] that returned, a second one
    raises the "has no key" error and changes nothing. *)
Theorem delete_run_twice samples k st st' :
  delete_run samples k st = (inr tt, st') →
  delete_run samples k st' = (inl (NoSuchRunError k), st').
Proof.
  intros Hdel.
  destruct (delete_run_post _ _ _ _ _ Hdel eq_refl) as [Hdoc _].
  unfold delete_run, _get_run_doc. mred. by rewrite Hdoc.
Qed.

(** X6: with a [cleanup] hook that leaves the dataset alone, [delete_run]
    touches nothing but its key: the documents and cache entries of the
    other keys, and every object other than the one cached under the key,
    are as before. *)
Theorem delete_run_only_removes_key samples k st d :
  run_docs st !! k = Some d →
  (∀ run, quiet (cleanup run samples k)) →
  ∃ st', delete_run samples k st = (inr tt, st')
    ∧ (∀ k', k' ≠ k →
         run_docs st' !! k' = run_docs st !! k'
         ∧ results_cache st' !! k' = results_cache st !! k')
    ∧ (∀ r, results_cache st !! k ≠ Some (Some r) →
         objects st' !! r = objects st !! r).
Proof.
  intros Hd Hquiet.
  destruct (delete_run_quiet_state samples k st d Hd Hquiet)
    as (st' & Hdel & Hdocs & Hcache & Hobjs).
  exists st'. split; [done|]. split.
  - intros k' Hne. rewrite Hdocs, Hcache.
    by rewrite !lookup_delete_ne.
  - intros r Hr. rewrite Hobjs.
    destruct (results_cache st !! k) as [[r'|]|]; try done.
    rewrite lookup_alter_ne; [done|]. congruence.
Qed.

(** X7: [delete_run] detaches the cached results object: its key becomes
    [None], so that [save()] and [save_config()] on it afterwards return
    without touching the dataset. *)
Theorem delete_run_detaches_results samples k st d r o backend :
  run_docs st !! k = Some d →
  results_cache st !! k = Some (Some r) →
  objects st !! r = Some o →
  res_backend o = Some backend →
  (∀ run, quiet (cleanup run samples k)) →
  ∃ st', delete_run samples k st = (inr tt, st')
    ∧ objects st' !! r = Some (set_key None o)
    ∧ RunResults_save r st' = (inr tt, st')
    ∧ RunResults_save_config r st' = (inr tt, st').
Proof.
  intros Hd Hcached Hobj Hbackend Hquiet.
  destruct (delete_run_quiet_state samples k st d Hd Hquiet)
    as (st' & Hdel & Hdocs & Hcache & Hobjs).
  rewrite Hcached in Hobjs.
  assert (objects st' !! r = Some (set_key None o)) as Hr.
  { rewrite Hobjs, lookup_alter_eq. by rewrite Hobj. }
  exists st'. repeat split; [done|done|..].
  - unfold RunResults_save, deref, backend_of, has_cached_run_results.
    mred. rewrite Hr. simpl. by rewrite Hbackend.
  - unfold RunResults_save_config, deref, backend_of. mred.
    rewrite Hr. simpl. rewrite Hbackend. by destruct (res_config o).
Qed.

Lemma lookup_delete_each {V} (m : gmap string V) k keys k' :
  k ∉ keys →
  (if decide (k' ∈ keys) then None else delete k m !! k')
  = if decide (k' ∈ k :: keys) then None else m !! k'.
Proof.
  intros Hnotin. destruct (decide (k' = k)) as [->|Hne].
  - rewrite lookup_delete_eq, (decide_True (P:=k ∈ k :: keys)) by (by left).
    by case_decide.
  - rewrite lookup_delete_ne by done.
    destruct (decide (k' ∈ keys)) as [Hin|Hin].
    + by rewrite decide_True by (by right).
    + rewrite decide_False; [done|]. rewrite elem_of_cons. tauto.
Qed.

Lemma delete_each_quiet samples keys : ∀ st,
  NoDup keys →
  (∀ k, k ∈ keys → is_Some (run_docs st !! k)) →
  (∀ run k, quiet (cleanup run samples k)) →
  ∃ st', delete_each samples keys st = (inr tt, st')
    ∧ (∀ k, run_docs st' !! k
            = if decide (k ∈ keys) then None else run_docs st !! k)
    ∧ (∀ k, results_cache st' !! k
            = if decide (k ∈ keys) then None else results_cache st !! k).
Proof.
  induction keys as [|k keys IH]; intros st Hnodup Hreg Hquiet; simpl.
  - exists st. repeat split; intros k; by rewrite decide_False by apply not_elem_of_nil.
  - apply NoDup_cons in Hnodup as [Hnotin Hnodup].
    destruct (Hreg k) as [d Hd]; [by left|].
    destruct (delete_run_quiet_state samples k st d Hd (λ run, Hquiet run k))
      as (st1 & Hdel & Hdocs & Hcache & _).
    destruct (IH st1 Hnodup) as (st' & Heach & Hdocs' & Hcache'); [|done|].
    { intros k' Hin. rewrite Hdocs, lookup_delete_ne; [|by intros ->].
      apply Hreg. by right. }
    exists st'. split; [by mstep by exact Hdel|].
    split; intros k'; [rewrite Hdocs', Hdocs|rewrite Hcache', Hcache];
      by apply lookup_delete_each.
Qed.

(** X8: with [cleanup] hooks that leave the dataset alone, [delete_runs]
    returns with no run document left, and with nothing cached under the
    keys that were registered. *)
Theorem delete_runs_empties samples st :
  (∀ run k, quiet (cleanup run samples k)) →
  ∃ st', delete_runs samples st = (inr tt, st')
    ∧ run_docs st' = ∅
    ∧ ∀ k, is_Some (run_docs st !! k) → results_cache st' !! k = None.
Proof.
  intros Hquiet.
  destruct (delete_each_quiet samples (sorted (dict_keys (run_docs st))) st)
    as (st' & Heach & Hdocs & Hcache); [| |done|].
  { unfold sorted, dict_keys. rewrite merge_sort_Permutation.
    apply NoDup_elements. }
  { intros k. by rewrite elem_of_sorted, elem_of_dict_keys. }
  exists st'. split; [|split].
  - unfold delete_runs. mstep by apply list_runs_all. exact Heach.
  - apply map_eq. intros k. rewrite Hdocs, lookup_empty.
    case_decide as Hin; [done|].
    rewrite elem_of_sorted, elem_of_dict_keys in Hin.
    by apply eq_None_not_Some.
  - intros k Hk. rewrite Hcache. rewrite decide_True; [done|].
    by rewrite elem_of_sorted, elem_of_dict_keys.
Qed.

(** X9: the errors of [save_run_results]: an unregistered key raises the
    [KeyError] of [run_docs[key]], and a run that already has results
    raises "already has results" when [overwrite] is off; in both cases
    nothing is written or cached. *)
Theorem save_run_results_errors samples k run_results overwrite cache st :
  (run_docs st !! k = None →
     save_run_results samples (Some k) run_results overwrite cache st
     = (inl (KeyError k), st))
  ∧ (∀ d blob,
       run_docs st !! k = Some d →
       doc_results d = Some blob →
       save_run_results samples (Some k) run_results false cache st
       = (inl (AlreadyHasResultsError k), st)).
Proof.
  split.
  - intros Hd. unfold save_run_results, run_docs_item. mred. by rewrite Hd.
  - intros d blob Hd Hres. unfold save_run_results, run_docs_item. mred.
    by rewrite Hd, Hres.
Qed.

Lemma save_run_results_cached samples k run_results overwrite st st' :
  save_run_results samples (Some k) run_results overwrite true st
  = (inr tt, st') →
  results_cache st' !! k = Some run_results.
Proof.
  unfold save_run_results, run_docs_item, deref. mred.
  destruct (run_docs st !! k) as [d|]; [|done].
  destruct (doc_results d), overwrite, run_results as [r|]; simpl;
    try done;
    try (destruct (objects st !! r); simpl; [|done]);
    intros [= <-]; simpl; by rewrite lookup_insert_eq.
Qed.

(** X10: results saved with [cache=True] are served from the cache: after
    a [save_run_results] that returned, [has_cached_run_results] is true
    and [load_run_results] returns the very object that was saved (or
    [None], when [None] was saved) without reading the document. *)
Theorem save_then_load_cached samples k run_results overwrite st st'
    load_view kwargs :
  save_run_results samples (Some k) run_results overwrite true st
  = (inr tt, st') →
  has_cached_run_results samples (Some k) st' = (inr true, st')
  ∧ load_run_results samples k true load_view kwargs st'
    = (inr run_results, st').
Proof.
  intros Hcached%save_run_results_cached. split.
  - unfold has_cached_run_results. mred. rewrite Hcached.
    by rewrite bool_decide_eq_true_2 by eauto.
  - unfold load_run_results. mred. by rewrite Hcached.
Qed.

(** X11: a miss in the cache on a run without results: for an
    unregistered key [load_run_results] raises "has no key"; for a
    registered run that saved no results it returns [None], and caches
    nothing. *)
Theorem load_run_results_nothing_saved samples k (cache load_view : bool)
    kwargs st :
  (if cache then results_cache st !! k else None) = None →
  (run_docs st !! k = None →
     load_run_results samples k cache load_view kwargs st
     = (inl (NoSuchRunError k), st))
  ∧ (∀ d, run_docs st !! k = Some d → doc_results d = None →
       load_run_results samples k cache load_view kwargs st = (inr None, st)).
Proof.
  intros Hmiss. split.
  - intros Hd. unfold load_run_results, _get_run_doc. mred.
    by rewrite Hmiss, Hd.
  - intros d Hd Hres. unfold load_run_results, _get_run_doc. mred.
    by rewrite Hmiss, Hd, Hres.
Qed.

Lemma RunResults_from_dict_state d samples config k st r st' :
  RunResults_from_dict d samples config k st = (r, st') →
  st' = st
  ∨ ∃ o, st' = set_objects (insert (fresh (dom (objects st))) o) st.
Proof.
  unfold RunResults_from_dict, new_object. mred.
  destruct d as [d|]; [|intros [= _ <-]; by left].
  destruct (dict_get "cls" d) as [c|]; [|intros [= _ <-]; by left].
  destruct (match c with VStr name => etau_get_class name | _ => _ end)
    as [e1|cls]; [intros [= _ <-]; by left|].
  destruct (results_from_dict cls d samples config k) as [e2|o];
    [intros [= _ <-]; by left|].
  intros [= _ <-]. right. by exists o.
Qed.

(** What [from_dict] returns is a live object. *)
Lemma RunResults_from_dict_live d samples config k st v st' :
  RunResults_from_dict d samples config k st = (inr v, st') →
  ∀ i, v = Some i → is_Some (objects st' !! i).
Proof.
  unfold RunResults_from_dict, new_object. mred.
  destruct d as [d|]; [|by intros [= <- _] i [=]].
  destruct (dict_get "cls" d) as [c|]; [|done].
  destruct (match c with VStr name => etau_get_class name | _ => _ end)
    as [e1|cls]; [done|].
  destruct (results_from_dict cls d samples config k) as [e2|o]; [done|].
  intros [= <- <-] i [= <-]. simpl. rewrite lookup_insert_eq. eauto.
Qed.

(** The outcomes of [load_run_results]: a hit, an error or a run without
    results, which leave the dataset alone, or a load, which may add one
    object at a fresh identity and, when asked to, caches what it
    returns. *)
Lemma load_run_results_cases samples k (cache load_view : bool) kwargs
    st r st' :
  load_run_results samples k cache load_view kwargs st = (r, st') →
  (st' = st
   ∧ ((∃ v, cache = true ∧ results_cache st !! k = Some v ∧ r = inr v)
      ∨ ((if cache then results_cache st !! k else None) = None
         ∧ ((∃ e, r = inl e)
            ∨ (r = inr None
               ∧ ∃ d, run_docs st !! k = Some d ∧ doc_results d = None)))))
  ∨ ((if cache then results_cache st !! k else None) = None
     ∧ ∃ v st2,
         r = inr v
         ∧ st' = (if cache then set_results_cache (insert k v) st2 else st2)
         ∧ (st2 = st
            ∨ ∃ o, st2 = set_objects
                           (insert (fresh (dom (objects st))) o) st)
         ∧ is_Some (run_docs st !! k)
         ∧ ∀ i, v = Some i → is_Some (objects st2 !! i)).
Proof.
  unfold load_run_results. unfold bind at 1, gets at 1.
  destruct (if cache then results_cache st !! k else None) as [v|] eqn:Hc.
  { intros [= <- <-]. left. split; [done|]. left. exists v.
    by destruct cache. }
  unfold bind at 1.
  pose proof (_get_run_doc_state samples k st) as Hst.
  destruct (_get_run_doc samples k st) as [[e|d] st1] eqn:Hdoc;
    simpl in Hst; subst st1.
  { intros [= <- <-]. left. split; [done|]. right. split; [done|]. left. eauto. }
  assert (run_docs st !! k = Some d) as Hd.
  { revert Hdoc. unfold _get_run_doc. mred.
    destruct (run_docs st !! k); [by intros [= ->]|done]. }
  destruct (doc_results d) as [blob|] eqn:Hres.
  2:{ intros [= <- <-]. left. split; [done|]. right. split; [done|].
      right. eauto. }
  unfold bind at 1.
  pose proof (get_run_info_state samples k st) as Hst.
  destruct (get_run_info samples k st) as [[e|info] st1];
    simpl in Hst; subst st1.
  { intros [= <- <-]. left. split; [done|]. right. split; [done|]. left. eauto. }
  unfold bind at 1, lift at 1.
  destruct (load_credentials (info_config info) kwargs) as [e|config].
  { intros [= <- <-]. left. split; [done|]. right. split; [done|]. left. eauto. }
  unfold bind at 1.
  assert (((if load_view then load_run_view samples k else ret root_dataset)
             st).2 = st) as Hst.
  { destruct load_view; [apply load_run_view_state|done]. }
  destruct ((if load_view then load_run_view samples k else ret root_dataset)
              st) as [[e|run_samples] st1]; simpl in Hst; subst st1.
  { intros [= <- <-]. left. split; [done|]. right. split; [done|]. left. eauto. }
  unfold bind at 1, lift at 1.
  destruct (json_loads blob) as [e|dict].
  { intros [= <- <-]. left. split; [done|]. right. split; [done|]. left. eauto. }
  unfold bind at 1, attempt at 1.
  destruct (RunResults_from_dict dict run_samples config k st)
    as [[e|v] st2] eqn:Hfrom.
  { pose proof (RunResults_from_dict_error _ _ _ _ _ _ _ Hfrom) as ->.
    unfold bind at 1.
    assert (∀ e', raise (A:=option oid) e' st = (inl e', st)) as Hraise by done.
    case_bool_decide; rewrite Hraise; intros [= <- <-]; left;
      (split; [done|]); right; (split; [done|]); left; eauto. }
  pose proof (RunResults_from_dict_live _ _ _ _ _ _ _ Hfrom) as Hlive.
  apply RunResults_from_dict_state in Hfrom.
  intros Hrest. right. split; [done|]. exists v, st2.
  revert Hrest. mred. destruct cache; intros [= <- <-]; eauto 6.
Qed.

(** X12: loading is repeatable: when [load_run_results] with the cache on
    has returned, a second call, whatever its [load_view] and keyword
    arguments, returns the same result (the same object) and changes
    nothing. *)
Theorem load_run_results_twice samples k load_view kwargs st r st'
    load_view' kwargs' :
  load_run_results samples k true load_view kwargs st = (inr r, st') →
  load_run_results samples k true load_view' kwargs' st' = (inr r, st').
Proof.
  intros Hload.
  destruct (load_run_results_cases _ _ _ _ _ _ _ _ Hload)
    as [[-> [(v & _ & Hhit & [= ->])|[Hmiss [[e [=]]|[[= ->] (d & Hd & Hres)]]]]]
       |(Hmiss & v & st2 & [= ->] & -> & _)].
  - unfold load_run_results. mred. by rewrite Hhit.
  - unfold load_run_results, _get_run_doc. mred. by rewrite Hmiss, Hd, Hres.
  - unfold load_run_results. mred. simpl. by rewrite lookup_insert_eq.
Qed.

(** X13: what [load_run_results] never does, on any outcome: it changes
    no run document, no cache entry of another key, and no object that was
    live before the call. *)
Theorem load_run_results_frame samples k cache load_view kwargs st :
  let st' := state_after
               (load_run_results samples k cache load_view kwargs) st in
  run_docs st' = run_docs st
  ∧ (∀ k', k' ≠ k → results_cache st' !! k' = results_cache st !! k')
  ∧ (∀ r o, objects st !! r = Some o → objects st' !! r = Some o).
Proof.
  unfold state_after.
  destruct (load_run_results samples k cache load_view kwargs st)
    as [r st'] eqn:Hload. simpl.
  destruct (load_run_results_cases _ _ _ _ _ _ _ _ Hload)
    as [[-> _]|(_ & v & st2 & _ & -> & Hst2 & _)]; [done|].
  assert (run_docs st2 = run_docs st
          ∧ results_cache st2 = results_cache st
          ∧ ∀ r o, objects st !! r = Some o → objects st2 !! r = Some o)
    as (Hdocs & Hcache & Hobjs).
  { destruct Hst2 as [->|[o ->]]; [done|]. simpl. repeat split.
    intros r0 o0 Hr0. rewrite lookup_insert_ne; [done|].
    intros <-. pose proof (is_fresh (dom (objects st))) as Hfresh.
    apply Hfresh, elem_of_dom. eauto. }
  destruct cache; simpl; rewrite ?Hdocs, ?Hcache; repeat split; auto.
  intros k' Hne. by rewrite lookup_insert_ne.
Qed.

(** X14: the readers never write: [list_runs] under any filters,
    [get_run_info], [load_run_view] and [has_cached_run_results] leave the
    dataset as it was, whether they return or raise. *)
Theorem readers_never_write samples type kwargs k key :
  quiet (list_runs samples type kwargs)
  ∧ quiet (get_run_info samples k)
  ∧ quiet (load_run_view samples k)
  ∧ quiet (has_cached_run_results samples key).
Proof.
  repeat split; intros st.
  - apply list_runs_state.
  - apply get_run_info_state.
  - apply load_run_view_state.
Qed.

(** X15: without filters [list_runs] always returns, and what it returns
    is the registered keys, each once. *)
Theorem list_runs_lists_registered samples st :
  ∃ keys, list_runs samples None [] st = (inr keys, st)
    ∧ NoDup keys
    ∧ ∀ k, k ∈ keys ↔ is_Some (run_docs st !! k).
Proof.
  eexists. split; [apply list_runs_all|]. split.
  - unfold sorted, dict_keys. rewrite merge_sort_Permutation.
    apply NoDup_elements.
  - intros k. by rewrite elem_of_sorted, elem_of_dict_keys.
Qed.





(** X18: updating and reading back: on a registered key
    [update_run_config] replaces the stored config and nothing else, so
    that [get_run_info] then gives the new config with the version and
    timestamp the run was registered with; the saved results, the other
    documents and the cache are untouched. *)
Theorem update_run_config_then_get_run_info samples k config st d :
  run_docs st !! k = Some d →
  dict_get "method" (cfg_attrs config) = None →
  dict_get "cls" (cfg_attrs config) = None →
  get_class (cfg_cls config) = true →
  config_init (cfg_cls config) (cfg_attrs config)
  = inr (cfg_method config, cfg_attrs config) →
  ∃ st', update_run_config samples (Some k) config st = (inr tt, st')
    ∧ get_run_info samples k st'
      = (inr {| info_key := doc_key d; info_version := doc_version d;
                info_timestamp := doc_timestamp d; info_config := config |},
         st')
    ∧ doc_results <$> run_docs st' !! k = Some (doc_results d)
    ∧ (∀ k', k' ≠ k → run_docs st' !! k' = run_docs st !! k')
    ∧ results_cache st' = results_cache st
    ∧ objects st' = objects st.
Proof.
  intros Hd Hm Hc Hcls Hinit.
  eexists. split.
  { unfold update_run_config, run_docs_item. mred. rewrite Hd. reflexivity. }
  assert (run_docs (set_run_docs (alter (set_doc_config (serialize config)) k)
                      st) !! k
          = Some (set_doc_config (serialize config) d)) as Hdoc.
  { simpl. by rewrite lookup_alter_eq, Hd. }
  split; [|split; [|split]].
  - rewrite (get_run_info_loaded _ _ _ _ config Hdoc); [done|].
    by apply RunConfig_from_dict_serialize.
  - by rewrite Hdoc.
  - intros k' Hne. simpl. by rewrite lookup_alter_ne.
  - done.
Qed.

(** *** The consistency of the bookkeeping *)

Lemma consistent_alter_docs f k st :
  (∀ d, doc_key (f d) = doc_key d) →
  consistent st → consistent (set_run_docs (alter f k) st).
Proof.
  intros Hf (Hk & Hc & Ho). repeat split; simpl.
  - intros k' d'. rewrite lookup_alter_Some.
    intros [[-> (x & Hx & ->)]|[Hne Hx]]; [rewrite Hf|]; by eapply Hk.
  - intros k' v Hv. apply lookup_alter_is_Some. by apply (Hc k' v).
  - exact Ho.
Qed.

Lemma consistent_insert_doc k d st :
  doc_key d = k →
  consistent st → consistent (set_run_docs (insert k d) st).
Proof.
  intros Hd (Hk & Hc & Ho). repeat split; simpl.
  - intros k' d'. rewrite lookup_insert_Some.
    intros [[<- <-]|[Hne Hx]]; [done|by eapply Hk].
  - intros k' v Hv. apply lookup_insert_is_Some'. right. by apply (Hc k' v).
  - exact Ho.
Qed.

Lemma consistent_cache_insert k v st :
  is_Some (run_docs st !! k) →
  (∀ r, v = Some r → is_Some (objects st !! r)) →
  consistent st → consistent (set_results_cache (insert k v) st).
Proof.
  intros Hdoc Hlive (Hk & Hc & Ho). repeat split; simpl.
  - exact Hk.
  - intros k' v'. rewrite lookup_insert_Some.
    intros [[<- <-]|[Hne Hx]]; [done|by apply (Hc k' v')].
  - intros k' v'. rewrite lookup_insert_Some.
    intros [[<- <-]|[Hne Hx]]; [done|by apply (Ho k' v')].
Qed.

Lemma consistent_delete k st :
  consistent st →
  consistent (set_results_cache (delete k) (set_run_docs (delete k) st)).
Proof.
  intros (Hk & Hc & Ho). repeat split; simpl.
  - intros k' d'. rewrite lookup_delete_Some. intros [_ Hx]. by eapply Hk.
  - intros k' v. rewrite lookup_delete_Some. intros [Hne Hx].
    apply lookup_delete_is_Some. split; [done|]. by apply (Hc k' v).
  - intros k' v. rewrite lookup_delete_Some. intros [_ Hx].
    by apply (Ho k' v).
Qed.

Lemma consistent_objects_alter f r st :
  consistent st → consistent (set_objects (alter f r) st).
Proof.
  intros (Hk & Hc & Ho). repeat split; simpl; [done|done|].
  intros k' v Hv r' Hr'. apply lookup_alter_is_Some. by apply (Ho k' v).
Qed.

Lemma consistent_objects_insert r o st :
  consistent st → consistent (set_objects (insert r o) st).
Proof.
  intros (Hk & Hc & Ho). repeat split; simpl; [done|done|].
  intros k' v Hv r' Hr'. apply lookup_insert_is_Some'. right.
  by apply (Ho k' v).
Qed.

Lemma keeps_ret P {A} (a : A) : keeps P (ret a).
Proof. by intros st. Qed.

Lemma keeps_raise P {A} e : keeps P (raise (A:=A) e).
Proof. by intros st. Qed.

Lemma keeps_quiet P {A} (m : M A) : quiet m → keeps P m.
Proof. intros Hq st HP. by rewrite Hq. Qed.

Lemma keeps_bind P {A B} (m : M A) (k : A → M B) :
  keeps P m → (∀ a, keeps P (k a)) → keeps P (bind m k).
Proof.
  intros Hm Hk st HP. unfold bind. specialize (Hm st HP).
  destruct (m st) as [[e|a] st1]; simpl in *; [done|]. by apply Hk.
Qed.

Lemma keeps_attempt P {A} (m : M A) : keeps P m → keeps P (attempt m).
Proof.
  intros Hm st HP. unfold attempt. specialize (Hm st HP).
  by destruct (m st).
Qed.

Lemma keeps_hook_block P samples k (hook : Run → M unit) :
  (∀ run, keeps P (hook run)) →
  keeps P (attempt (run_info <- get_run_info samples k ;;
                    run <- lift (build (info_config run_info)) ;;
                    hook run)).
Proof.
  intros Hhook. apply keeps_attempt, keeps_bind.
  - apply keeps_quiet. intros st. apply get_run_info_state.
  - intros info. apply keeps_bind; [|done]. by intros st.
Qed.

Section Invariant.
Hypothesis Hhooks : hooks_keep consistent.

Lemma keeps_delete_run samples k : keeps consistent (delete_run samples k).
Proof.
  destruct Hhooks as (_ & _ & Hcleanup).
  unfold delete_run. apply keeps_bind.
  { apply keeps_quiet. intros st. apply _get_run_doc_state. }
  intros d. apply keeps_bind.
  { apply (keeps_hook_block _ samples k (λ run, cleanup run samples k)).
    intros run. apply Hcleanup. }
  intros _ st Hst. unfold cache_pop. mred. simpl.
  destruct (mjoin _); simpl;
    [apply consistent_objects_alter|]; by apply consistent_delete.
Qed.

Lemma keeps_validate_run self samples key overwrite :
  keeps consistent (validate_run self samples key overwrite).
Proof.
  destruct Hhooks as (Hvalidate & _ & _).
  unfold validate_run. destruct key as [k|]; [|apply keeps_raise].
  destruct (negb (isidentifier k)); [apply keeps_raise|].
  apply keeps_bind.
  { apply keeps_quiet. intros st. apply list_runs_state. }
  intros keys. destruct (negb (contains k keys)); [apply keeps_ret|].
  destruct (negb overwrite); [apply keeps_raise|].
  apply keeps_bind.
  { apply keeps_attempt, keeps_quiet. intros st. apply get_run_info_state. }
  intros [e|info]; [apply keeps_ret|].
  case_bool_decide; [apply keeps_raise|apply Hvalidate].
Qed.

Lemma keeps_save_run_info samples run_info overwrite :
  keeps consistent (save_run_info samples run_info overwrite).
Proof.
  unfold save_run_info. apply keeps_bind.
  { apply keeps_quiet. intros st. apply list_runs_state. }
  intros keys. apply keeps_bind.
  { destruct (contains _ keys); [|apply keeps_ret].
    destruct overwrite; [apply keeps_delete_run|apply keeps_raise]. }
  intros _ st Hst. by apply consistent_insert_doc.
Qed.

Lemma keeps_register_run self samples key overwrite now :
  keeps consistent (register_run self samples key overwrite now).
Proof.
  unfold register_run. destruct key as [k|]; [|apply keeps_ret].
  apply keeps_bind; [apply keeps_validate_run|].
  intros _. apply keeps_save_run_info.
Qed.

Lemma keeps_update_run_key samples key new_key :
  keeps consistent (update_run_key samples key new_key).
Proof.
  destruct Hhooks as (_ & Hrename & _).
  unfold update_run_key. apply keeps_bind.
  { apply keeps_quiet. intros st. apply list_runs_state. }
  intros keys. destruct (contains new_key keys); [apply keeps_raise|].
  apply keeps_bind.
  { apply (keeps_hook_block _ samples key
             (λ run, rename run samples key new_key)).
    intros run. apply Hrename. }
  intros _ st Hst. unfold run_docs_item, cache_pop. mred.
  destruct (run_docs st !! key) as [d|]; [|done]. simpl.
  assert (consistent
            (set_results_cache (delete key)
               (set_run_docs (insert new_key (set_doc_key new_key d))
                  (set_run_docs (delete key) st)))) as Hmoved.
  { destruct Hst as (Hk & Hc & Ho). repeat split; simpl.
    - intros k' d'. rewrite lookup_insert_Some, lookup_delete_Some.
      intros [[<- <-]|[_ [_ Hx]]]; [done|by eapply Hk].
    - intros k' v. rewrite lookup_delete_Some. intros [Hne Hx].
      apply lookup_insert_is_Some'. right.
      apply lookup_delete_is_Some. split; [done|]. by apply (Hc k' v).
    - intros k' v. rewrite lookup_delete_Some. intros [_ Hx].
      by apply (Ho k' v). }
  destruct (results_cache st !! key) as [[r|]|] eqn:Hcached; simpl;
    [|done|done].
  apply consistent_cache_insert.
  - simpl. rewrite lookup_insert_eq. eauto.
  - intros r' [= <-]. simpl. apply lookup_alter_is_Some.
    destruct Hst as (_ & _ & Ho). by apply (Ho key (Some r)).
  - by apply consistent_objects_alter.
Qed.

Lemma keeps_delete_runs samples : keeps consistent (delete_runs samples).
Proof.
  unfold delete_runs. apply keeps_bind.
  { apply keeps_quiet. intros st. apply list_runs_state. }
  intros keys. induction keys as [|k keys IH]; simpl; [apply keeps_ret|].
  apply keeps_bind; [apply keeps_delete_run|done].
Qed.

End Invariant.

Lemma keeps_update_run_config samples key config :
  keeps consistent (update_run_config samples key config).
Proof.
  intros st Hst. unfold update_run_config, run_docs_item.
  destruct key as [k|]; [|done]. mred.
  destruct (run_docs st !! k); [|done]. simpl.
  by apply consistent_alter_docs.
Qed.

Lemma keeps_save_run_results samples key run_results overwrite cache :
  keeps consistent (save_run_results samples key run_results overwrite cache).
Proof.
  intros st Hst. unfold save_run_results, run_docs_item, deref.
  destruct key as [k|]; [|done]. mred.
  destruct (run_docs st !! k) as [d|] eqn:Hd; [|done].
  assert (∀ f, (∀ x, doc_key (f x) = doc_key x) →
               is_Some (run_docs (set_run_docs (alter f k) st) !! k)) as Hreg.
  { intros f _. simpl. apply lookup_alter_is_Some. eauto. }
  destruct (doc_results d), overwrite, run_results as [r|], cache; simpl;
    try done;
    try (destruct (objects st !! r) eqn:Hr; simpl);
    repeat first
      [ done
      | apply consistent_alter_docs; [done|]
      | apply consistent_cache_insert;
        [ simpl; rewrite !lookup_alter_is_Some; eauto
        | intros ? [= <-]; simpl; eauto
        | ] ].
Qed.

Lemma keeps_load_run_results samples k cache load_view kwargs :
  keeps consistent (load_run_results samples k cache load_view kwargs).
Proof.
  intros st Hst.
  destruct (load_run_results samples k cache load_view kwargs st)
    as [r st'] eqn:Hload. simpl.
  destruct (load_run_results_cases _ _ _ _ _ _ _ _ Hload)
    as [[-> _]|(_ & v & st2 & _ & -> & Hst2 & Hreg & Hlive)]; [done|].
  assert (consistent st2 ∧ is_Some (run_docs st2 !! k)) as [Hc2 Hreg2].
  { destruct Hst2 as [->|[o ->]]; [done|]. split; [|done].
    by apply consistent_objects_insert. }
  destruct cache; [|done]. by apply consistent_cache_insert.
Qed.

Lemma keeps_RunResults_save self : keeps consistent (RunResults_save self).
Proof.
  unfold RunResults_save. apply keeps_bind.
  { apply keeps_quiet. intros st. unfold deref. mred.
    by destruct (objects st !! self). }
  intros o. apply keeps_bind.
  { apply keeps_quiet. intros st. unfold backend_of.
    by destruct (res_backend o). }
  intros _. apply keeps_bind; [by apply keeps_quiet|].
  intros c. apply keeps_save_run_results.
Qed.

Lemma keeps_RunResults_save_config self :
  keeps consistent (RunResults_save_config self).
Proof.
  unfold RunResults_save_config. apply keeps_bind.
  { apply keeps_quiet. intros st. unfold deref. mred.
    by destruct (objects st !! self). }
  intros o. apply keeps_bind.
  { apply keeps_quiet. intros st. unfold backend_of.
    by destruct (res_backend o). }
  intros _. destruct (res_config o); [apply keeps_update_run_config|].
  destruct (_key o) as [k|]; [|apply keeps_ret].
  apply keeps_quiet. intros st. unfold run_docs_item. mred.
  by destruct (run_docs st !! k).
Qed.

(** X17: the bookkeeping stays consistent.  If every run document is
    stored under its own key, every cached key is registered and every
    cached object is live, and if the hooks of the [Run] subclasses keep
    it so, then every operation of the module leaves it so, whether it
    returns or raises. *)
Theorem consistent_preserved :
  hooks_keep consistent →
  (∀ self samples key overwrite now,
     keeps consistent (register_run self samples key overwrite now))
  ∧ (∀ samples key new_key,
       keeps consistent (update_run_key samples key new_key))
  ∧ (∀ samples k, keeps consistent (delete_run samples k))
  ∧ (∀ samples, keeps consistent (delete_runs samples))
  ∧ (∀ samples key config,
       keeps consistent (update_run_config samples key config))
  ∧ (∀ samples key run_results overwrite cache,
       keeps consistent
         (save_run_results samples key run_results overwrite cache))
  ∧ (∀ samples k cache load_view kwargs,
       keeps consistent (load_run_results samples k cache load_view kwargs))
  ∧ (∀ self, keeps consistent (RunResults_save self))
  ∧ (∀ self, keeps consistent (RunResults_save_config self)).
Proof.
  intros Hhooks. repeat apply conj.
  - intros. by apply keeps_register_run.
  - intros. by apply keeps_update_run_key.
  - intros. by apply keeps_delete_run.
  - intros. by apply keeps_delete_runs.
  - intros. apply keeps_update_run_config.
  - intros. apply keeps_save_run_results.
  - intros. apply keeps_load_run_results.
  - intros. apply keeps_RunResults_save.
  - intros. apply keeps_RunResults_save_config.
Qed.

(** X23: saving and loading without the cache: the results class's
    [_from_dict] receives exactly the dict that [serialize] produced, with
    its ["cls"] tag, provided the JSON codec round-trips it and the tag
    resolves; the object it builds is returned at a fresh identity, the
    cache is not written, and the stored document is read, not changed. *)
Theorem save_then_load_uncached samples k r o d overwrite kwargs st
    config config' o' :
  run_docs st !! k = Some d →
  overwrite = true ∨ doc_results d = None →
  objects st !! r = Some o →
  RunConfig_from_dict (doc_config d) = inr config →
  load_credentials config kwargs = inr config' →
  json_loads (json_dumps (RunResults_serialize o))
  = inr (Some (RunResults_serialize o)) →
  get_class (res_cls o) = true →
  results_from_dict (res_cls o) (RunResults_serialize o) root_dataset
    config' k = inr o' →
  ∃ st1 st2,
    save_run_results samples (Some k) (Some r) overwrite false st
    = (inr tt, st1)
    ∧ load_run_results samples k false false kwargs st1
      = (inr (Some (fresh (dom (objects st)))), st2)
    ∧ objects st2 = <[fresh (dom (objects st)):=o']> (objects st)
    ∧ run_docs st2 = run_docs st1
    ∧ results_cache st2 = results_cache st.
Proof.
  intros Hd Hover Hobj Hconfig Hcred Hjson Hcls Hfrom.
  set (blob := json_dumps (RunResults_serialize o)).
  assert (∃ st1,
            save_run_results samples (Some k) (Some r) overwrite false st
            = (inr tt, st1)
            ∧ run_docs st1 !! k = Some (set_doc_results (Some blob) d)
            ∧ results_cache st1 = results_cache st
            ∧ objects st1 = objects st) as (st1 & Hsave & Hd1 & Hc1 & Ho1).
  { unfold save_run_results, run_docs_item, deref. mred. rewrite Hd.
    destruct (doc_results d) as [old|] eqn:Hres.
    - destruct Hover as [->|[=]]. simpl. rewrite Hobj. simpl.
      eexists. split; [reflexivity|]. simpl.
      by rewrite !lookup_alter_eq, Hd.
    - simpl. rewrite Hobj. simpl. eexists. split; [reflexivity|]. simpl.
      by rewrite !lookup_alter_eq, Hd. }
  exists st1. eexists. split; [exact Hsave|].
  assert (_get_run_doc samples k st1
          = (inr (set_doc_results (Some blob) d), st1)) as Hget_doc.
  { unfold _get_run_doc. mred. by rewrite Hd1. }
  split.
  - unfold load_run_results. mstep. simpl.
    mstep by exact Hget_doc. simpl.
    mstep by exact (get_run_info_loaded _ _ _ _ config Hd1 Hconfig).
    simpl. mstep by (apply lift_eq, Hcred).
    mstep.
    mstep by (apply lift_eq, Hjson).
    unfold RunResults_from_dict, new_object, etau_get_class. mred. simpl.
    rewrite Hcls, Hfrom. rewrite Ho1. reflexivity.
  - simpl. by rewrite Ho1, Hc1.
Qed.

(** X24: registering a fresh identifier succeeds, whatever the hooks, and
    adds its document and nothing else: the other documents, the cache and
    the objects are as before. *)
Theorem register_fresh_key_succeeds self samples k overwrite now st :
  isidentifier k = true →
  run_docs st !! k = None →
  ∃ st', register_run self samples (Some k) overwrite now st = (inr tt, st')
    ∧ is_Some (run_docs st' !! k)
    ∧ (∀ k', k' ≠ k → run_docs st' !! k' = run_docs st !! k')
    ∧ results_cache st' = results_cache st
    ∧ objects st' = objects st.
Proof.
  intros Hid Hfresh. eexists. split.
  { apply (register_run_fresh self samples k overwrite now st Hid Hfresh). }
  simpl. rewrite lookup_insert_eq. repeat split; [eauto|].
  intros k' Hne. by rewrite lookup_insert_ne.
Qed.

(** X25: registering again over a run of the same config type, with
    [overwrite] on and hooks that accept and leave the dataset alone,
    discards what the old run had: the new document has no results, the
    key is no longer cached, and the results object that was cached is
    detached from the key. *)
Theorem register_run_overwrite_discards_results self samples k now st d
    existing_info :
  isidentifier k = true →
  run_docs st !! k = Some d →
  get_run_info samples k st = (inr existing_info, st) →
  cfg_cls (run_config self) = cfg_cls (info_config existing_info) →
  _validate_run self samples k existing_info st = (inr tt, st) →
  (∀ run, quiet (cleanup run samples k)) →
  ∃ st', register_run self samples (Some k) true now st = (inr tt, st')
    ∧ run_docs st'
      = <[k:={| doc_key := k; doc_version := Some VERSION;
                doc_timestamp := now;
                doc_config := serialize (run_config self);
                doc_view_stages := serialized_view samples;
                doc_results := None |}]> (run_docs st)
    ∧ results_cache st' = delete k (results_cache st)
    ∧ objects st'
      = match results_cache st !! k with
        | Some (Some r) => alter (set_key None) r (objects st)
        | _ => objects st
        end.
Proof.
  intros Hid Hd Hinfo Htype Hvalidate Hquiet.
  assert (contains k (sorted (dict_keys (run_docs st))) = true) as Hlisted.
  { apply contains_run_keys. eauto. }
  destruct (delete_run_quiet_state samples k st d Hd Hquiet)
    as (st1 & Hdel & Hdocs & Hcache & Hobjs).
  eexists. split.
  { unfold register_run.
    assert (validate_run self samples (Some k) true st = (inr tt, st))
      as Hvalid.
    { unfold validate_run. rewrite Hid. simpl.
      mstep by apply list_runs_all. rewrite Hlisted. simpl.
      mstep by (apply attempt_eq, Hinfo). simpl.
      by rewrite bool_decide_eq_false_2 by (by intros []). }
    mstep by exact Hvalid. unfold save_run_info.
    mstep by apply list_runs_all. simpl. rewrite Hlisted.
    mstep by exact Hdel. reflexivity. }
  simpl. rewrite Hdocs, Hcache, Hobjs.
  by rewrite insert_delete_eq.
Qed.

End Properties.

(** ** The properties on concrete datasets *)

Lemma demo_hooks_quiet :
  (∀ run samples k new_k, quiet (rename (Env:=demo_env) run samples k new_k))
  ∧ (∀ run samples k, quiet (cleanup (Env:=demo_env) run samples k)).
Proof. by split. Qed.

Lemma register_run_document_witness :
  run_docs (state_after
              (register_run (E:=demo_env) foo_run root_dataset (Some "a")
                 true 7) cached_a) !! "a"
  = Some {| doc_key := "a"; doc_version := Some "0.21.0";
            doc_timestamp := 7;
            doc_config := [("method", VStr "demo");
                           ("cls", VStr "pkg.FooConfig")];
            doc_view_stages := []; doc_results := None |}.
Proof.
  refine (register_run_document (E:=demo_env) foo_run root_dataset "a" true 7
            cached_a _ _).
  vm_compute. reflexivity.
Defined.

Lemma register_run_then_get_run_info_witness :
  get_run_info (E:=demo_env) root_dataset "a" registered_a
  = (inr {| info_key := "a"; info_version := Some "0.21.0";
            info_timestamp := 0; info_config := foo_config |}, registered_a).
Proof.
  refine (register_run_then_get_run_info (E:=demo_env) foo_run root_dataset
            "a" true 0 empty_dataset registered_a _ _ _ _ _);
    vm_compute; reflexivity.
Defined.

Lemma update_run_key_missing_witness :
  update_run_key (E:=demo_env) root_dataset "zz" "yy" registered_a
  = (inl (KeyError "zz"), registered_a).
Proof.
  refine (update_run_key_missing (E:=demo_env) root_dataset "zz" "yy"
            registered_a _ _); vm_compute; reflexivity.
Defined.

Lemma update_run_key_moves_witness :
  ∃ st', update_run_key (E:=demo_env) root_dataset "a" "b" cached_a
         = (inr tt, st')
    ∧ run_docs st'
      = <["b":=set_doc_key "b" cached_a_doc]> (delete "a" (run_docs cached_a))
    ∧ results_cache st'
      = match results_cache cached_a !! "a" with
        | Some (Some r) => <["b":=Some r]> (delete "a" (results_cache cached_a))
        | _ => delete "a" (results_cache cached_a)
        end
    ∧ objects st'
      = match results_cache cached_a !! "a" with
        | Some (Some r) => alter (set_key (Some "b")) r (objects cached_a)
        | _ => objects cached_a
        end.
Proof.
  refine (update_run_key_moves (E:=demo_env) root_dataset "a" "b" cached_a
            cached_a_doc _ _ _);
    [vm_compute; reflexivity | vm_compute; reflexivity |].
  intros run st. reflexivity.
Defined.

Lemma delete_run_twice_witness :
  delete_run (E:=demo_env) root_dataset "a"
    (state_after (delete_run (E:=demo_env) root_dataset "a") cached_a)
  = (inl (NoSuchRunError "a"),
     state_after (delete_run (E:=demo_env) root_dataset "a") cached_a).
Proof.
  refine (delete_run_twice (E:=demo_env) root_dataset "a" cached_a _ _).
  vm_compute. reflexivity.
Defined.

Lemma delete_run_only_removes_key_witness :
  ∃ st', delete_run (E:=demo_env) root_dataset "b" registered_bca
         = (inr tt, st')
    ∧ (∀ k', k' ≠ "b" →
         run_docs st' !! k' = run_docs registered_bca !! k'
         ∧ results_cache st' !! k' = results_cache registered_bca !! k')
    ∧ (∀ r, results_cache registered_bca !! "b" ≠ Some (Some r) →
         objects st' !! r = objects registered_bca !! r).
Proof.
  refine (delete_run_only_removes_key (E:=demo_env) root_dataset "b"
            registered_bca
            {| doc_key := "b"; doc_version := Some "0.21.0";
               doc_timestamp := 1;
               doc_config := [("method", VStr "demo");
                              ("cls", VStr "pkg.FooConfig")];
               doc_view_stages := []; doc_results := None |} _ _);
    [vm_compute; reflexivity|].
  intros run st. reflexivity.
Defined.

Lemma delete_run_detaches_results_witness :
  ∃ st', delete_run (E:=demo_env) root_dataset "a" cached_a = (inr tt, st')
    ∧ objects st' !! 0%nat = Some (set_key None foo_results)
    ∧ RunResults_save (E:=demo_env) 0%nat st' = (inr tt, st')
    ∧ RunResults_save_config 0%nat st' = (inr tt, st').
Proof.
  refine (delete_run_detaches_results (E:=demo_env) root_dataset "a" cached_a
            cached_a_doc 0%nat foo_results foo_run _ _ _ _ _);
    [vm_compute; reflexivity | vm_compute; reflexivity
    | vm_compute; reflexivity | reflexivity |].
  intros run st. reflexivity.
Defined.

Lemma delete_runs_empties_witness :
  ∃ st', delete_runs (E:=demo_env) root_dataset registered_bca = (inr tt, st')
    ∧ run_docs st' = ∅
    ∧ ∀ k, is_Some (run_docs registered_bca !! k) →
           results_cache st' !! k = None.
Proof.
  refine (delete_runs_empties (E:=demo_env) root_dataset registered_bca _).
  intros run k st. reflexivity.
Defined.

Lemma save_run_results_errors_witness :
  save_run_results (E:=demo_env) root_dataset (Some "zz") None true true
    registered_a
  = (inl (KeyError "zz"), registered_a)
  ∧ save_run_results (E:=demo_env) root_dataset (Some "a") (Some 0%nat)
      false true cached_a
    = (inl (AlreadyHasResultsError "a"), cached_a).
Proof.
  split.
  - refine (proj1 (save_run_results_errors (E:=demo_env) root_dataset "zz"
                     None true true registered_a) _).
    vm_compute. reflexivity.
  - refine (proj2 (save_run_results_errors (E:=demo_env) root_dataset "a"
                     (Some 0%nat) false true cached_a)
              cached_a_doc "pkg.FooResults" _ _);
      vm_compute; reflexivity.
Defined.

Lemma save_then_load_cached_witness :
  has_cached_run_results root_dataset (Some "a") cached_a
  = (inr true, cached_a)
  ∧ load_run_results (E:=demo_env) root_dataset "a" true true [] cached_a
    = (inr (Some 0%nat), cached_a).
Proof.
  refine (save_then_load_cached (E:=demo_env) root_dataset "a" (Some 0%nat)
            true (set_objects (insert 0%nat foo_results) registered_a)
            cached_a true [] _).
  vm_compute. reflexivity.
Defined.

Lemma load_run_results_nothing_saved_witness :
  load_run_results (E:=demo_env) root_dataset "zz" true true [] registered_a
  = (inl (NoSuchRunError "zz"), registered_a)
  ∧ load_run_results (E:=demo_env) root_dataset "a" true true [] registered_a
    = (inr None, registered_a).
Proof.
  split.
  - refine (proj1 (load_run_results_nothing_saved (E:=demo_env) root_dataset
                     "zz" true true [] registered_a _) _);
      vm_compute; reflexivity.
  - refine (proj2 (load_run_results_nothing_saved (E:=demo_env) root_dataset
                     "a" true true [] registered_a _)
              {| doc_key := "a"; doc_version := Some "0.21.0";
                 doc_timestamp := 0;
                 doc_config := [("method", VStr "demo");
                                ("cls", VStr "pkg.FooConfig")];
                 doc_view_stages := []; doc_results := None |} _ _);
      vm_compute; reflexivity.
Defined.

Lemma load_run_results_twice_witness :
  load_run_results (E:=demo_env) root_dataset "a" true false []
    (state_after
       (load_run_results (E:=demo_env) root_dataset "a" true true []) saved_a)
  = (inr (Some 1%nat),
     state_after
       (load_run_results (E:=demo_env) root_dataset "a" true true []) saved_a).
Proof.
  refine (load_run_results_twice (E:=demo_env) root_dataset "a" true []
            saved_a (Some 1%nat) _ false [] _).
  vm_compute. reflexivity.
Defined.


Lemma consistent_preserved_witness :
  consistent
    (state_after (update_run_key (E:=demo_env) root_dataset "a" "b")
       (state_after
          (register_run (E:=demo_env) foo_run root_dataset (Some "a") true 0)
          empty_dataset)).
Proof.
  assert (hooks_keep (E:=demo_env) consistent) as Hhooks.
  { repeat apply conj; intros; intros st Hst; exact Hst. }
  destruct (consistent_preserved (E:=demo_env) Hhooks)
    as (Hregister & Hupdate & _).
  apply Hupdate, Hregister.
  repeat apply conj; apply map_Forall_empty.
Defined.

Lemma update_run_config_then_get_run_info_witness :
  ∃ st', update_run_config root_dataset (Some "a") bar_config cached_a
         = (inr tt, st')
    ∧ get_run_info (E:=demo_env) root_dataset "a" st'
      = (inr {| info_key := "a"; info_version := Some "0.21.0";
                info_timestamp := 0; info_config := bar_config |}, st')
    ∧ doc_results <$> run_docs st' !! "a" = Some (Some "pkg.FooResults")
    ∧ (∀ k', k' ≠ "a" → run_docs st' !! k' = run_docs cached_a !! k')
    ∧ results_cache st' = results_cache cached_a
    ∧ objects st' = objects cached_a.
Proof.
  refine (update_run_config_then_get_run_info (E:=demo_env) root_dataset "a"
            bar_config cached_a cached_a_doc _ _ _ _ _);
    vm_compute; reflexivity.
Defined.

Lemma save_then_load_uncached_witness :
  ∃ st1 st2,
    save_run_results (E:=demo_env) root_dataset (Some "a") (Some 0%nat) true
      false (set_objects (insert 0%nat foo_results) registered_a)
    = (inr tt, st1)
    ∧ load_run_results (E:=demo_env) root_dataset "a" false false [] st1
      = (inr (Some (fresh (dom (objects
                                  (set_objects (insert 0%nat foo_results)
                                     registered_a))))), st2)
    ∧ objects st2
      = <[fresh (dom (objects (set_objects (insert 0%nat foo_results)
                                 registered_a))):=
            {| res_cls := "pkg.FooResults"; res_samples := root_dataset;
               res_config := Some foo_config; res_backend := None;
               _key := Some "a"; res_attrs := [] |}]>
          (objects (set_objects (insert 0%nat foo_results) registered_a))
    ∧ run_docs st2 = run_docs st1
    ∧ results_cache st2
      = results_cache (set_objects (insert 0%nat foo_results) registered_a).
Proof.
  refine (save_then_load_uncached (E:=demo_env) root_dataset "a" 0%nat
            foo_results
            {| doc_key := "a"; doc_version := Some "0.21.0";
               doc_timestamp := 0;
               doc_config := [("method", VStr "demo");
                              ("cls", VStr "pkg.FooConfig")];
               doc_view_stages := []; doc_results := None |}
            true [] _ foo_config foo_config _ _ _ _ _ _ _ _ _);
    [vm_compute; reflexivity | by left | vm_compute; reflexivity
    | reflexivity | reflexivity | reflexivity | reflexivity | reflexivity].
Defined.

Lemma register_fresh_key_succeeds_witness :
  ∃ st', register_run (E:=demo_env) bar_run root_dataset (Some "b") false 9
           cached_a = (inr tt, st')
    ∧ is_Some (run_docs st' !! "b")
    ∧ (∀ k', k' ≠ "b" → run_docs st' !! k' = run_docs cached_a !! k')
    ∧ results_cache st' = results_cache cached_a
    ∧ objects st' = objects cached_a.
Proof.
  refine (register_fresh_key_succeeds (E:=demo_env) bar_run root_dataset "b"
            false 9 cached_a _ _); vm_compute; reflexivity.
Defined.

Lemma register_run_overwrite_discards_results_witness :
  ∃ st', register_run (E:=demo_env) foo_run root_dataset (Some "a") true 7
           cached_a = (inr tt, st')
    ∧ run_docs st'
      = <["a":={| doc_key := "a"; doc_version := Some "0.21.0";
                  doc_timestamp := 7;
                  doc_config := serialize foo_config;
                  doc_view_stages := []; doc_results := None |}]>
          (run_docs cached_a)
    ∧ results_cache st' = delete "a" (results_cache cached_a)
    ∧ objects st'
      = match results_cache cached_a !! "a" with
        | Some (Some r) => alter (set_key None) r (objects cached_a)
        | _ => objects cached_a
        end.
Proof.
  refine (register_run_overwrite_discards_results (E:=demo_env) foo_run
            root_dataset "a" 7 cached_a cached_a_doc
            {| info_key := "a"; info_version := Some "0.21.0";
               info_timestamp := 0; info_config := foo_config |}
            _ _ _ _ _ _);
    [reflexivity | vm_compute; reflexivity | vm_compute; reflexivity
    | reflexivity | reflexivity |].
  intros run st. reflexivity.
Defined.

End RunsMore.

(** * Further properties of the 3D scene nodes *)

Module ThreedMore.
Import PyStr Threed ThreedSpec.

Lemma append_assoc s1 s2 s3 :
  String.append (String.append s1 s2) s3
  = String.append s1 (String.append s2 s3).
Proof.
  induction s1 as [|c s1 IH]; [done|].
  rewrite !append_cons. by rewrite IH.
Qed.

Lemma endswith_same_length s a b :
  endswith s a = true → endswith s b = true →
  String.length a = String.length b → a = b.
Proof.
  unfold endswith. intros [_ Ha]%andb_true_iff [_ Hb]%andb_true_iff Hlen.
  apply String.eqb_eq in Ha, Hb. rewrite <- Ha, <- Hb. by rewrite Hlen.
Qed.

Lemma endswith_tail s c t :
  endswith s (String c t) = true → endswith s t = true.
Proof.
  intros [stem ->]%endswith_iff. apply endswith_iff.
  exists (String.append stem (String c EmptyString)).
  by rewrite append_assoc.
Qed.

(** Two of the extensions the constructors test cannot both end a path. *)
Ltac ext_clash :=
  match goal with
  | H1 : endswith ?s ?a = true, H2 : endswith ?s ?b = true |- _ =>
      first
        [ discriminate (endswith_same_length s a b H1 H2 eq_refl)
        | discriminate (endswith_same_length s _ b
                          (endswith_tail s _ _ H1) H2 eq_refl) ]
  end.

Lemma dict_get_dict_set k k' v (d : pydict) :
  dict_get k' (dict_set k v d)
  = if String.eqb k k' then Some v else dict_get k' d.
Proof.
  induction d as [|[k0 v0] d IH]; simpl.
  - done.
  - destruct (String.eqb_spec k0 k) as [->|Hne]; simpl.
    + by destruct (String.eqb k k').
    + destruct (String.eqb_spec k0 k') as [->|Hne'].
      * by rewrite (proj2 (String.eqb_neq k k')) by done.
      * apply IH.
Qed.

Section Properties.
Context `{B : Base}.

Lemma constructed_ObjMesh name path mtl kwargs :
  constructed (ObjMesh_init name path mtl kwargs) = true →
  endswith (lower path) ".obj" = true.
Proof.
  unfold constructed, ObjMesh_init.
  destruct (Object3D_init name kwargs); [done|].
  by destruct (endswith (lower path) ".obj").
Qed.

Lemma constructed_FBXMesh name path kwargs :
  constructed (FBXMesh_init name path kwargs) = true →
  endswith (lower path) ".fbx" = true.
Proof.
  unfold constructed, FBXMesh_init.
  destruct (Object3D_init name kwargs); [done|].
  by destruct (endswith (lower path) ".fbx").
Qed.

Lemma constructed_GLTFMesh name path kwargs :
  constructed (GLTFMesh_init name path kwargs) = true →
  endswith (lower path) ".gltf" = true ∨ endswith (lower path) ".glb" = true.
Proof.
  unfold constructed, GLTFMesh_init.
  destruct (Object3D_init name kwargs); [done|].
  destruct (endswith (lower path) ".gltf"),
    (endswith (lower path) ".glb"); simpl; auto.
Qed.

Lemma constructed_PlyMesh name path kwargs :
  constructed (PlyMesh_init name path kwargs) = true →
  endswith (lower path) ".ply" = true.
Proof.
  unfold constructed, PlyMesh_init.
  destruct (Object3D_init name kwargs); [done|].
  by destruct (endswith (lower path) ".ply").
Qed.

Lemma constructed_StlMesh name path kwargs :
  constructed (StlMesh_init name path kwargs) = true →
  endswith (lower path) ".stl" = true.
Proof.
  unfold constructed, StlMesh_init.
  destruct (Object3D_init name kwargs); [done|].
  by destruct (endswith (lower path) ".stl").
Qed.

Lemma constructed_PointCloud name path material flag kwargs :
  constructed (PointCloud_init name path material flag kwargs) = true →
  endswith (lower path) ".pcd" = true.
Proof.
  unfold constructed, PointCloud_init.
  destruct (Object3D_init name kwargs); [done|].
  by destruct (endswith (lower path) ".pcd").
Qed.

(** X19: the point cloud and the four light classes emit camel-case keys
    only, the lights provided the keys that [Object3D._to_dict_extra]
    contributes are camel case. *)
Theorem light_and_point_cloud_keys_camel_case (n : Node) :
  is_mesh n = false →
  Forall (λ k, is_camel_case k = true) (keys (inherited_extra n)) →
  Forall (λ k, is_camel_case k = true) (keys (_to_dict_extra n)).
Proof.
  intros Hmesh Hbase.
  destruct n as [| | | | |p|l|l|l|l]; try done; simpl in *.
  - apply PointCloud_keys_camel_case.
  - by apply Light_keys_camel_case.
  - apply Forall_forall. intros k.
    unfold DirectionalLight_to_dict_extra.
    rewrite elem_of_keys_dict_merge. intros [Hk|Hk].
    + revert k Hk. apply Forall_forall. by apply Light_keys_camel_case.
    + change (k ∈ ["target"]) in Hk.
      rewrite !elem_of_cons, elem_of_nil in Hk. by destruct Hk as [->|[]].
  - apply Forall_forall. intros k.
    unfold PointLight_to_dict_extra.
    rewrite elem_of_keys_dict_merge. intros [Hk|Hk].
    + revert k Hk. apply Forall_forall. by apply Light_keys_camel_case.
    + change (k ∈ ["distance"; "decay"]) in Hk.
      rewrite !elem_of_cons, elem_of_nil in Hk.
      by destruct Hk as [->|[->|[]]].
  - apply Forall_forall. intros k.
    unfold SpotLight_to_dict_extra.
    rewrite elem_of_keys_dict_merge. intros [Hk|Hk].
    + revert k Hk. apply Forall_forall. by apply Light_keys_camel_case.
    + change (k ∈ ["target"; "distance"; "decay"; "angle"; "penumbra"]) in Hk.
      rewrite !elem_of_cons, elem_of_nil in Hk.
      by destruct Hk as [->|[->|[->|[->|[->|[]]]]]].
Qed.

(** X20: a light's own fields win: whatever [Object3D._to_dict_extra]
    contributes, the dict of a light holds the light's colour and
    intensity under ["color"] and ["intensity"], and the dict of a
    subclass holds in addition its own fields under their keys. *)
Theorem light_fields_override_base :
  (∀ l : Light,
     dict_get "color" (Light_to_dict_extra l) = Some (JStr (color l))
     ∧ dict_get "intensity" (Light_to_dict_extra l)
       = Some (JNum (intensity l)))
  ∧ (∀ l : DirectionalLight,
       dict_get "color" (DirectionalLight_to_dict_extra l)
       = Some (JStr (color (dl_light l)))
       ∧ dict_get "intensity" (DirectionalLight_to_dict_extra l)
         = Some (JNum (intensity (dl_light l)))
       ∧ dict_get "target" (DirectionalLight_to_dict_extra l)
         = Some (Vector3_tolist (dl_target l)))
  ∧ (∀ l : PointLight,
       dict_get "color" (PointLight_to_dict_extra l)
       = Some (JStr (color (pl_light l)))
       ∧ dict_get "intensity" (PointLight_to_dict_extra l)
         = Some (JNum (intensity (pl_light l)))
       ∧ dict_get "distance" (PointLight_to_dict_extra l)
         = Some (JNum (pl_distance l))
       ∧ dict_get "decay" (PointLight_to_dict_extra l)
         = Some (JNum (pl_decay l)))
  ∧ (∀ l : SpotLight,
       dict_get "color" (SpotLight_to_dict_extra l)
       = Some (JStr (color (sl_light l)))
       ∧ dict_get "intensity" (SpotLight_to_dict_extra l)
         = Some (JNum (intensity (sl_light l)))
       ∧ dict_get "target" (SpotLight_to_dict_extra l)
         = Some (Vector3_tolist (sl_target l))
       ∧ dict_get "distance" (SpotLight_to_dict_extra l)
         = Some (JNum (sl_distance l))
       ∧ dict_get "decay" (SpotLight_to_dict_extra l)
         = Some (JNum (sl_decay l))
       ∧ dict_get "angle" (SpotLight_to_dict_extra l)
         = Some (JNum (sl_angle l))
       ∧ dict_get "penumbra" (SpotLight_to_dict_extra l)
         = Some (JNum (sl_penumbra l))).
Proof.
  repeat apply conj; intros l;
    unfold SpotLight_to_dict_extra, PointLight_to_dict_extra,
      DirectionalLight_to_dict_extra, Light_to_dict_extra, dict_merge;
    simpl; by rewrite !dict_get_dict_set.
Qed.

(** X21: a path opens at most one kind of node: among the six
    constructors, given the same name, path and keywords, at most one
    returns a node, whatever the other arguments. *)
Theorem at_most_one_class_accepts name path kwargs mtl material flag :
  (length
     (List.filter (λ b : bool, b)
        [constructed (ObjMesh_init name path mtl kwargs);
         constructed (FBXMesh_init name path kwargs);
         constructed (GLTFMesh_init name path kwargs);
         constructed (PlyMesh_init name path kwargs);
         constructed (StlMesh_init name path kwargs);
         constructed (PointCloud_init name path material flag kwargs)])
   ≤ 1)%nat.
Proof.
  destruct (constructed (ObjMesh_init name path mtl kwargs)) eqn:Hobj;
  destruct (constructed (FBXMesh_init name path kwargs)) eqn:Hfbx;
  destruct (constructed (GLTFMesh_init name path kwargs)) eqn:Hgltf;
  destruct (constructed (PlyMesh_init name path kwargs)) eqn:Hply;
  destruct (constructed (StlMesh_init name path kwargs)) eqn:Hstl;
  destruct (constructed (PointCloud_init name path material flag kwargs))
    eqn:Hpcd;
  simpl; try lia; exfalso;
  try apply constructed_ObjMesh in Hobj;
  try apply constructed_FBXMesh in Hfbx;
  try (apply constructed_GLTFMesh in Hgltf; destruct Hgltf as [Hgltf|Hgltf]);
  try apply constructed_PlyMesh in Hply;
  try apply constructed_StlMesh in Hstl;
  try apply constructed_PointCloud in Hpcd;
  ext_clash.
Qed.

(** X22: a node that was constructed emits the path it was given, letter
    for letter, under the path key of its class; a new point cloud emits
    its three keys and no pre-transformed path. *)
Theorem constructed_node_emits_path name path kwargs :
  (∀ mtl m, ObjMesh_init name path mtl kwargs = inr m →
     dict_get "obj_path" (ObjMesh_to_dict_extra m) = Some (JStr path)
     ∧ dict_get "mtl_path" (ObjMesh_to_dict_extra m) = Some (opt_str mtl))
  ∧ (∀ m, FBXMesh_init name path kwargs = inr m →
       dict_get "fbx_path" (FBXMesh_to_dict_extra m) = Some (JStr path))
  ∧ (∀ m, GLTFMesh_init name path kwargs = inr m →
       dict_get "gltf_path" (GLTFMesh_to_dict_extra m) = Some (JStr path))
  ∧ (∀ m, PlyMesh_init name path kwargs = inr m →
       dict_get "ply_path" (PlyMesh_to_dict_extra m) = Some (JStr path))
  ∧ (∀ m, StlMesh_init name path kwargs = inr m →
       dict_get "stl_path" (StlMesh_to_dict_extra m) = Some (JStr path))
  ∧ (∀ material flag p,
       PointCloud_init name path material flag kwargs = inr p →
       dict_get "pcdPath" (PointCloud_to_dict_extra p) = Some (JStr path)
       ∧ dict_get "flagForProjection" (PointCloud_to_dict_extra p)
         = Some (JBool flag)
       ∧ keys (PointCloud_to_dict_extra p)
         = ["pcdPath"; "defaultMaterial"; "flagForProjection"]).
Proof.
  unfold ObjMesh_init, FBXMesh_init, GLTFMesh_init, PlyMesh_init,
    StlMesh_init, PointCloud_init.
  destruct (Object3D_init name kwargs) as [e|base]; [by repeat apply conj|].
  repeat apply conj.
  - intros mtl m. destruct (endswith (lower path) ".obj"); [|done]. simpl.
    destruct (match mtl with Some _ => _ | None => _ end); [done|].
    by intros [= <-].
  - intros m. destruct (endswith (lower path) ".fbx"); [|done].
    by intros [= <-].
  - intros m. destruct (_ || _); [|done]. by intros [= <-].
  - intros m. destruct (endswith (lower path) ".ply"); [|done].
    by intros [= <-].
  - intros m. destruct (endswith (lower path) ".stl"); [|done].
    by intros [= <-].
  - intros material flag p. destruct (endswith (lower path) ".pcd"); [|done].
    simpl. destruct (match material with MaterialNone => _ | _ => _ end);
      [done|]. by intros [= <-].
Qed.

End Properties.

Lemma light_and_point_cloud_keys_camel_case_witness :
  Forall (λ k, is_camel_case k = true)
    (keys (_to_dict_extra (NSpotLight demo_spot))).
Proof.
  refine (light_and_point_cloud_keys_camel_case (B:=plain_base)
            (NSpotLight demo_spot) _ _); [reflexivity|].
  simpl. constructor.
Defined.

Lemma constructed_node_emits_path_witness :
  dict_get "obj_path"
    (ObjMesh_to_dict_extra
       {| obj_base := "mesh" : @Object3D plain_base;
          obj_path := "Mesh.OBJ"; mtl_path := None |})
  = Some (JStr "Mesh.OBJ")
  ∧ dict_get "mtl_path"
      (ObjMesh_to_dict_extra
         {| obj_base := "mesh" : @Object3D plain_base;
            obj_path := "Mesh.OBJ"; mtl_path := None |})
    = Some (opt_str None).
Proof.
  refine (proj1 (constructed_node_emits_path (B:=plain_base) "mesh"
                   "Mesh.OBJ" []) None _ _).
  reflexivity.
Defined.

End ThreedMore.
